(** * The containerized web application stack (lib/stack.ts)

    A shallow embedding of the CDK stack of this repository.  The stack is a
    single constructor that calls eleven builder methods in a fixed order;
    every builder registers constructs in the stack's scope and some of them
    mutate constructs registered earlier (ingress rules, health check,
    auto scaling, role policy).  The scope is modelled as an association
    list in construction order, threaded through a state-and-error monad. *)

From Stdlib Require Import String List ZArith Lia Bool Relations Sorted.
Import ListNotations.
Open Scope string_scope.
Open Scope list_scope.
Open Scope Z_scope.

(** ** Construct identifiers and deploy-time string values *)

Definition ConstructId := string.

(** A string-typed property is either a literal of the program or a token
    that the deployment resolves: an attribute of another construct, a
    dynamic reference to one JSON field of a generated secret, or the entry
    of a mapping under the partition of the deployment. *)
Inductive Tok : Type :=
| Lit (s : string)
| Attr (c : ConstructId) (a : string)
| SecretJson (c : ConstructId) (field : string)
| FindInMap (mapping : ConstructId) (key : string)
| Undefined.

Definition tok_refs (t : Tok) : list ConstructId :=
  match t with
  | Lit _ => []
  | Attr c _ => [c]
  | SecretJson c _ => [c]
  | FindInMap c _ => [c]
  | Undefined => []
  end.

Definition is_secret (t : Tok) : bool :=
  match t with SecretJson _ _ => true | _ => false end.

Definition is_literal (t : Tok) : bool :=
  match t with Lit _ => true | _ => false end.

(** ** Property records of the library constructs the stack instantiates *)

Module route53.
Record HostedZoneAttributes := { hostedZoneId : string; zoneName : string }.
(** The handle returned by [fromHostedZoneAttributes]. *)
Record IHostedZone := { zone_node : ConstructId; zone_attrs : HostedZoneAttributes }.
Inductive RecordTarget := fromAlias_CloudFrontTarget (distribution : ConstructId).
Record ARecordProps := { target : RecordTarget; zone : IHostedZone }.
End route53.

Module acm.
Inductive CertificateValidation := fromDns (zone : route53.IHostedZone).
Record CertificateProps := {
  domainName : string;
  subjectAlternativeNames : list string;
  validation : CertificateValidation }.
End acm.

Module ec2.
Inductive SubnetType := PUBLIC | PRIVATE_WITH_EGRESS | PRIVATE_ISOLATED.
Record SubnetConfiguration := {
  cidrMask : Z; name : string; subnetType : SubnetType }.
Record VpcProps := {
  maxAzs : Z; natGateways : Z;
  subnetConfiguration : list SubnetConfiguration }.
Record SecurityGroupProps := { vpc : ConstructId; description : string }.
Inductive Port := tcp (p : Z).
(** A source of traffic: the security group carried by a construct. *)
Inductive IPeer := SecurityGroupPeer (owner : ConstructId).
Record IngressRule := { peer : IPeer; connection : Port }.
(** The handle of a security group created by [new ec2.SecurityGroup]. *)
Record SecurityGroup := { sg_node : ConstructId; securityGroupId : Tok }.
Inductive InstanceClass := M7G.
Inductive InstanceSize := MEDIUM.
Record InstanceType := of_ { instanceClass : InstanceClass; instanceSize : InstanceSize }.

Definition Port_eqb (a b : Port) : bool :=
  match a, b with tcp p, tcp q => Z.eqb p q end.
Definition IPeer_eqb (a b : IPeer) : bool :=
  match a, b with SecurityGroupPeer x, SecurityGroupPeer y => String.eqb x y end.
Definition IngressRule_eqb (a b : IngressRule) : bool :=
  IPeer_eqb (peer a) (peer b) && Port_eqb (connection a) (connection b).
End ec2.

Module rds.
Inductive AuroraMysqlEngineVersion := VER_3_07_1.
Inductive DatabaseClusterEngine := auroraMysql (version : AuroraMysqlEngineVersion).
Record ClusterInstance := provisioned { inst_id : string; instanceType : ec2.InstanceType }.
Record DatabaseClusterProps := {
  engine : DatabaseClusterEngine;
  writer : ClusterInstance;
  readers : list ClusterInstance;
  defaultDatabaseName : string;
  vpc : ConstructId;
  securityGroups : list ConstructId }.
(** The secret a cluster generates for its master user. *)
Record ISecret := { secret_of : ConstructId }.
Record SecretValue := { sv_secret : ISecret; sv_field : string }.
Definition secretValueFromJson (s : ISecret) (field : string) : SecretValue :=
  {| sv_secret := s; sv_field := field |}.
(** [unsafeUnwrap] yields the token of the dynamic reference, a string
    that stands for the value until deployment. *)
Definition unsafeUnwrap (v : SecretValue) : Tok :=
  SecretJson (secret_of (sv_secret v)) (sv_field v).
(** The handle of a cluster: its endpoint and its generated secret. *)
Record DatabaseCluster := {
  db_node : ConstructId;
  clusterEndpoint_hostname : Tok;
  secret : option ISecret }.
End rds.

Module elasticache.
Record CfnCacheClusterProps := {
  engine : string;
  engineVersion : string;
  numCacheNodes : Z;
  cacheNodeType : string;
  vpcSecurityGroupIds : list Tok }.
Record CfnCacheCluster := { cache_node : ConstructId; attrRedisEndpointAddress : Tok }.
End elasticache.

Module s3.
Inductive BucketAccess := ReadWrite.
(** A statement of a role's policy: the access granted on a bucket. *)
Record Grant := { access : BucketAccess; resource : ConstructId }.
End s3.

Module elbv2.
(** Parts of the load-balanced service pattern, named by the construct
    that owns them. *)
Record ApplicationTargetGroup := { tg_owner : ConstructId }.
Record ApplicationLoadBalancer := { lb_owner : ConstructId }.
End elbv2.

Module iam.
Record IRole := { role_owner : ConstructId }.
End iam.

Module ecs.
Record ClusterProps := { vpc : ConstructId }.
Inductive ContainerImage := fromAsset (directory : string).
Record TaskImageOptions := {
  image : ContainerImage;
  containerPort : Z;
  environment : list (string * Tok) }.
Record EnableScalingProps := { minCapacity : Z; maxCapacity : Z }.
Inductive ScalingPolicy :=
| CpuUtilization (targetUtilizationPercent : Z)
| RequestCount (requestsPerTarget : Z) (targetGroup : elbv2.ApplicationTargetGroup).
(** The state of a service's scaling controller: its bounds and the
    target tracking policies attached to it, each under its identifier. *)
Record Scaling := {
  bounds : EnableScalingProps;
  policies : list (string * ScalingPolicy) }.
(** The handle [autoScaleTaskCount] returns. *)
Record ScalableTaskCount := { scaled_service : ConstructId }.
Record HealthCheck := { path : string }.
Record FargateService := {
  fs_owner : ConstructId;
  connections_securityGroups : list ec2.IPeer }.
End ecs.

Module ecsPatterns.
Record ApplicationLoadBalancedFargateServiceProps := {
  cluster : ConstructId;
  memoryLimitMiB : Z;
  listenerPort : Z;
  taskImageOptions : ecs.TaskImageOptions;
  desiredCount : Z;
  certificate : ConstructId }.
(** The object the pattern returns and the handles reachable from it. *)
Record ApplicationLoadBalancedFargateService := {
  svc_node : ConstructId;
  service : ecs.FargateService;
  targetGroup : elbv2.ApplicationTargetGroup;
  loadBalancer : elbv2.ApplicationLoadBalancer;
  taskDefinition_taskRole : iam.IRole }.
End ecsPatterns.

Module wafv2.
Inductive Action := allow | block.
Inductive OverrideAction := none | count.
Record ManagedRuleGroupStatement := { vendorName : string; group_name : string }.
Record VisibilityConfig := {
  sampledRequestsEnabled : bool;
  cloudWatchMetricsEnabled : bool;
  metricName : string }.
Record Rule := {
  name : string;
  priority : Z;
  overrideAction : OverrideAction;
  statement : ManagedRuleGroupStatement;
  rule_visibilityConfig : VisibilityConfig }.
Record CfnWebACLProps := {
  defaultAction : Action;
  scope : string;
  rules : list Rule;
  visibilityConfig : VisibilityConfig }.
Record CfnWebACL := { acl_node : ConstructId; attrArn : Tok }.
End wafv2.

Module cloudfront.
Inductive OriginProtocolPolicy := HTTP_ONLY | MATCH_VIEWER | HTTPS_ONLY.
Inductive ViewerProtocolPolicy := VIEWER_HTTPS_ONLY | REDIRECT_TO_HTTPS | VIEWER_ALLOW_ALL.
Inductive AllowedMethods := ALLOW_GET_HEAD | ALLOW_GET_HEAD_OPTIONS | ALLOW_ALL.
Inductive CachedMethods := CACHE_GET_HEAD | CACHE_GET_HEAD_OPTIONS.
Record LoadBalancerV2Origin := {
  origin_loadBalancer : ConstructId;
  protocolPolicy : OriginProtocolPolicy;
  httpPort : Z;
  httpsPort : Z }.
Record BehaviorOptions := {
  origin : LoadBalancerV2Origin;
  viewerProtocolPolicy : ViewerProtocolPolicy;
  allowedMethods : AllowedMethods;
  cachedMethods : CachedMethods }.
Record DistributionProps := {
  defaultBehavior : BehaviorOptions;
  domainNames : list string;
  certificate : option ConstructId;
  webAclId : option Tok }.

(** What the two protocol enumerations mean at the edge. *)
Inductive Scheme := HTTP | HTTPS.
Definition origin_port (o : LoadBalancerV2Origin) (viewer : Scheme) : Z :=
  match protocolPolicy o with
  | HTTP_ONLY => httpPort o
  | HTTPS_ONLY => httpsPort o
  | MATCH_VIEWER => match viewer with HTTP => httpPort o | HTTPS => httpsPort o end
  end.
Inductive ViewerOutcome := Served | RedirectedToHttps | Refused.
Definition viewer_outcome (p : ViewerProtocolPolicy) (viewer : Scheme) : ViewerOutcome :=
  match viewer, p with
  | HTTPS, _ => Served
  | HTTP, VIEWER_ALLOW_ALL => Served
  | HTTP, REDIRECT_TO_HTTPS => RedirectedToHttps
  | HTTP, VIEWER_HTTPS_ONLY => Refused
  end.
End cloudfront.

(** ** The construct tree *)

(** One construct of the stack's scope with the state the stack can change
    after construction. *)
Inductive Resource : Type :=
| R_HostedZone (attrs : route53.HostedZoneAttributes)
| R_Vpc (props : ec2.VpcProps)
| R_CfnWebACL (props : wafv2.CfnWebACLProps)
| R_Bucket
| R_SecurityGroup (props : ec2.SecurityGroupProps) (ingress : list ec2.IngressRule)
| R_DatabaseCluster (props : rds.DatabaseClusterProps)
| R_CfnCacheCluster (props : elasticache.CfnCacheClusterProps)
| R_Cluster (props : ecs.ClusterProps)
| R_Certificate (props : acm.CertificateProps)
| R_Service (props : ecsPatterns.ApplicationLoadBalancedFargateServiceProps)
            (healthCheck : option ecs.HealthCheck)
            (scaling : option ecs.Scaling)
            (taskRolePolicy : list s3.Grant)
| R_Distribution (props : cloudfront.DistributionProps)
| R_ARecord (props : route53.ARecordProps)
| R_CfnMapping (mapping : list (string * list (string * string))).

(** The children of a scope, in construction order. *)
Definition Tree := list (ConstructId * Resource).

Inductive BuildError : Type :=
| DuplicateConstruct (id : ConstructId)
| UnknownConstruct (id : ConstructId)
| ScalingAlreadyEnabled
| TypeError.

Inductive Result (A : Type) : Type :=
| Ok (a : A)
| Err (e : BuildError).
Arguments Ok {A} a.
Arguments Err {A} e.

(** Builders run in the scope [this]: they read and extend its tree, or
    throw. *)
Definition M (A : Type) : Type := Tree -> Result (A * Tree).

Definition ret {A} (a : A) : M A := fun t => Ok (a, t).
Definition throw {A} (e : BuildError) : M A := fun _ => Err e.
Definition bind {A B} (m : M A) (k : A -> M B) : M B :=
  fun t => match m t with
           | Ok (a, t') => k a t'
           | Err e => Err e
           end.

Notation "x <- m ;; k" := (bind m (fun x => k))
  (at level 61, m at next level, right associativity).
Notation "' p <- m ;; k" := (bind m (fun p => k))
  (at level 61, p pattern, m at next level, right associativity).
Notation "m ;;; k" := (bind m (fun _ => k))
  (at level 61, right associativity).

Fixpoint tryFindChild (t : Tree) (id : ConstructId) : option Resource :=
  match t with
  | [] => None
  | (i, r) :: t' => if String.eqb i id then Some r else tryFindChild t' id
  end.

Fixpoint replaceChild (t : Tree) (id : ConstructId) (r : Resource) : Tree :=
  match t with
  | [] => []
  | (i, r0) :: t' =>
      if String.eqb i id then (i, r) :: t' else (i, r0) :: replaceChild t' id r
  end.

(** Registering a child under an identifier the scope already has throws. *)
Definition addChild (id : ConstructId) (r : Resource) : M unit :=
  fun t => match tryFindChild t id with
           | Some _ => Err (DuplicateConstruct id)
           | None => Ok (tt, t ++ [(id, r)])
           end.

(** A method of a construct that changes its state. *)
Definition modify (id : ConstructId) (f : Resource -> Result Resource) : M unit :=
  fun t => match tryFindChild t id with
           | None => Err (UnknownConstruct id)
           | Some r => match f r with
                       | Ok r' => Ok (tt, replaceChild t id r')
                       | Err e => Err e
                       end
           end.

(** ** The library constructors and methods the stack calls

    Each [new_X id props] is [new X(this, id, props)]: it registers the
    construct and returns the handle the program keeps. *)

Definition fromHostedZoneAttributes (id : ConstructId)
    (attrs : route53.HostedZoneAttributes) : M route53.IHostedZone :=
  addChild id (R_HostedZone attrs) ;;;
  ret {| route53.zone_node := id; route53.zone_attrs := attrs |}.

Definition new_Vpc (id : ConstructId) (props : ec2.VpcProps) : M ConstructId :=
  addChild id (R_Vpc props) ;;; ret id.

Definition new_Bucket (id : ConstructId) : M ConstructId :=
  addChild id R_Bucket ;;; ret id.

Definition new_Cluster (id : ConstructId) (props : ecs.ClusterProps) : M ConstructId :=
  addChild id (R_Cluster props) ;;; ret id.

Definition new_SecurityGroup (id : ConstructId) (props : ec2.SecurityGroupProps)
  : M ec2.SecurityGroup :=
  addChild id (R_SecurityGroup props []) ;;;
  ret {| ec2.sg_node := id; ec2.securityGroupId := Attr id "GroupId" |}.

(** The stack passes no credentials, so the cluster generates the secret of
    its master user and exposes it as [secret]. *)
Definition new_DatabaseCluster (id : ConstructId) (props : rds.DatabaseClusterProps)
  : M rds.DatabaseCluster :=
  addChild id (R_DatabaseCluster props) ;;;
  ret {| rds.db_node := id;
         rds.clusterEndpoint_hostname := Attr id "Endpoint.Address";
         rds.secret := Some {| rds.secret_of := id |} |}.

Definition new_CfnCacheCluster (id : ConstructId)
    (props : elasticache.CfnCacheClusterProps) : M elasticache.CfnCacheCluster :=
  addChild id (R_CfnCacheCluster props) ;;;
  ret {| elasticache.cache_node := id;
         elasticache.attrRedisEndpointAddress := Attr id "RedisEndpoint.Address" |}.

(** The library also refuses a literal domain name of more than 64
    characters.  The zone name of the program is within that bound and the
    check is not part of this model; the statements below that range over
    zone names speak of the graphs a build produces. *)
Definition new_Certificate (id : ConstructId) (props : acm.CertificateProps)
  : M ConstructId :=
  addChild id (R_Certificate props) ;;; ret id.

Definition new_ApplicationLoadBalancedFargateService (id : ConstructId)
    (props : ecsPatterns.ApplicationLoadBalancedFargateServiceProps)
  : M ecsPatterns.ApplicationLoadBalancedFargateService :=
  addChild id (R_Service props None None []) ;;;
  ret {| ecsPatterns.svc_node := id;
         ecsPatterns.service :=
           {| ecs.fs_owner := id;
              ecs.connections_securityGroups := [ec2.SecurityGroupPeer id] |};
         ecsPatterns.targetGroup := {| elbv2.tg_owner := id |};
         ecsPatterns.loadBalancer := {| elbv2.lb_owner := id |};
         ecsPatterns.taskDefinition_taskRole := {| iam.role_owner := id |} |}.

(** A level-one construct: the properties are stored as given, nothing is
    validated. *)
Definition new_CfnWebACL (id : ConstructId) (props : wafv2.CfnWebACLProps)
  : M wafv2.CfnWebACL :=
  addChild id (R_CfnWebACL props) ;;;
  ret {| wafv2.acl_node := id; wafv2.attrArn := Attr id "Arn" |}.

Definition new_Distribution (id : ConstructId) (props : cloudfront.DistributionProps)
  : M ConstructId :=
  addChild id (R_Distribution props) ;;; ret id.

(** The mapping from partition to the hosted zone of CloudFront that an
    alias to a distribution looks its zone up in.  It is a child of the
    stack, created by the first alias target that needs it. *)
Definition CloudFrontPartitionHostedZoneIdMap : ConstructId :=
  "AWSCloudFrontPartitionHostedZoneIdMap".

Definition CloudFrontTarget_getHostedZoneId : M Tok :=
  fun t =>
    match tryFindChild t CloudFrontPartitionHostedZoneIdMap with
    | Some _ => Ok (FindInMap CloudFrontPartitionHostedZoneIdMap "zoneId", t)
    | None =>
        (addChild CloudFrontPartitionHostedZoneIdMap
           (R_CfnMapping [ ("aws", [ ("zoneId", "Z2FDTNDATAQYW2") ]);
                           ("aws-cn", [ ("zoneId", "Z3RFFRIM2A3IF5") ]) ]) ;;;
         ret (FindInMap CloudFrontPartitionHostedZoneIdMap "zoneId")) t
    end.

(** The record registers itself and then binds its target, which for a
    distribution registers the mapping above. *)
Definition new_ARecord (id : ConstructId) (props : route53.ARecordProps) : M unit :=
  addChild id (R_ARecord props) ;;;
  match route53.target props with
  | route53.fromAlias_CloudFrontTarget _ =>
      CloudFrontTarget_getHostedZoneId ;;; ret tt
  end.

Definition configureHealthCheck (tg : elbv2.ApplicationTargetGroup)
    (hc : ecs.HealthCheck) : M unit :=
  modify (elbv2.tg_owner tg) (fun r =>
    match r with
    | R_Service p _ s g => Ok (R_Service p (Some hc) s g)
    | _ => Err (UnknownConstruct (elbv2.tg_owner tg))
    end).

Definition hasIngressRule (rules : list ec2.IngressRule) (rule : ec2.IngressRule) : bool :=
  existsb (ec2.IngressRule_eqb rule) rules.

(** A rule the group already has is not added again. *)
Definition addDirectIngressRule (rules : list ec2.IngressRule) (rule : ec2.IngressRule)
  : list ec2.IngressRule :=
  if hasIngressRule rules rule then rules else rules ++ [rule].

(** [peer] is what the caller read out of an array: [None] is [undefined],
    on which the method throws. *)
Definition addIngressRule (sg : ec2.SecurityGroup) (peer : option ec2.IPeer)
    (connection : ec2.Port) : M unit :=
  match peer with
  | None => throw TypeError
  | Some p =>
      modify (ec2.sg_node sg) (fun r =>
        match r with
        | R_SecurityGroup props ingress =>
            Ok (R_SecurityGroup props
                  (addDirectIngressRule ingress
                     {| ec2.peer := p; ec2.connection := connection |}))
        | _ => Err (UnknownConstruct (ec2.sg_node sg))
        end)
  end.

(** Enabling task-count scaling twice on one service throws. *)
Definition autoScaleTaskCount (svc : ecs.FargateService) (props : ecs.EnableScalingProps)
  : M ecs.ScalableTaskCount :=
  modify (ecs.fs_owner svc) (fun r =>
    match r with
    | R_Service p h None g =>
        Ok (R_Service p h (Some {| ecs.bounds := props; ecs.policies := [] |}) g)
    | R_Service _ _ (Some _) _ => Err ScalingAlreadyEnabled
    | _ => Err (UnknownConstruct (ecs.fs_owner svc))
    end) ;;;
  ret {| ecs.scaled_service := ecs.fs_owner svc |}.

(** A policy is a child of the controller: its identifier must be new. *)
Definition addScalingPolicy (scaling : ecs.ScalableTaskCount) (id : string)
    (policy : ecs.ScalingPolicy) : M unit :=
  modify (ecs.scaled_service scaling) (fun r =>
    match r with
    | R_Service p h (Some s) g =>
        if existsb (fun q => String.eqb (fst q) id) (ecs.policies s)
        then Err (DuplicateConstruct id)
        else Ok (R_Service p h
                   (Some {| ecs.bounds := ecs.bounds s;
                            ecs.policies := ecs.policies s ++ [(id, policy)] |}) g)
    | _ => Err (UnknownConstruct (ecs.scaled_service scaling))
    end).

Definition scaleOnCpuUtilization (scaling : ecs.ScalableTaskCount) (id : string)
    (targetUtilizationPercent : Z) : M unit :=
  addScalingPolicy scaling id (ecs.CpuUtilization targetUtilizationPercent).

Definition scaleOnRequestCount (scaling : ecs.ScalableTaskCount) (id : string)
    (requestsPerTarget : Z) (targetGroup : elbv2.ApplicationTargetGroup) : M unit :=
  addScalingPolicy scaling id (ecs.RequestCount requestsPerTarget targetGroup).

(** The grant is a statement added to the policy of the role. *)
Definition grantReadWrite (bucket : ConstructId) (role : iam.IRole) : M unit :=
  modify (iam.role_owner role) (fun r =>
    match r with
    | R_Service p h s g =>
        Ok (R_Service p h s
              (g ++ [{| s3.access := s3.ReadWrite; s3.resource := bucket |}]))
    | _ => Err (UnknownConstruct (iam.role_owner role))
    end).

(** ** lib/stack.ts *)

(** The module-level constants of the stack. *)
Record Config := {
  HOSTED_ZONE_ID : string;
  ZONE_NAME : string;
  CONTAINER_PORT : Z;
  CONTAINER_HEALTHCHECK_PATH : string }.

Definition source_constants : Config :=
  {| HOSTED_ZONE_ID := "xxx";
     ZONE_NAME := "yyy.com";
     CONTAINER_PORT := 80;
     CONTAINER_HEALTHCHECK_PATH := "/foo/bar.html" |}.

(** [Array.prototype.map] with the callback's second argument. *)
Fixpoint map_index {A B} (f : A -> Z -> B) (index : Z) (l : list A) : list B :=
  match l with
  | [] => []
  | x :: l' => f x index :: map_index f (index + 1) l'
  end.

(** The callback of [createWafWebAcl]. *)
Definition managedRule (name : string) (index : Z) : wafv2.Rule :=
  {| wafv2.name := name;
     wafv2.priority := index + 2;
     wafv2.overrideAction := wafv2.none;
     wafv2.statement :=
       {| wafv2.vendorName := "AWS"; wafv2.group_name := name |};
     wafv2.rule_visibilityConfig :=
       {| wafv2.sampledRequestsEnabled := true;
          wafv2.cloudWatchMetricsEnabled := true;
          wafv2.metricName := (name ++ "Metric")%string |} |}.

Definition managedRuleNames : list string :=
  [ "AWSManagedRulesCommonRuleSet";
    "AWSManagedRulesPHPRuleSet";
    "AWSManagedRulesWordPressRuleSet";
    "AWSManagedRulesSQLiRuleSet" ].

Section Stack.

Variable cfg : Config.

Definition importRoute53Zone : M route53.IHostedZone :=
  fromHostedZoneAttributes "Zone"
    {| route53.hostedZoneId := HOSTED_ZONE_ID cfg;
       route53.zoneName := ZONE_NAME cfg |}.

Definition createCertificate (route53Zone : route53.IHostedZone) : M ConstructId :=
  new_Certificate "Certificate"
    {| acm.domainName := route53.zoneName (route53.zone_attrs route53Zone);
       acm.subjectAlternativeNames :=
         [ ("*." ++ route53.zoneName (route53.zone_attrs route53Zone))%string ];
       acm.validation := acm.fromDns route53Zone |}.

Definition createVpc : M ConstructId :=
  new_Vpc "Vpc"
    {| ec2.maxAzs := 2;
       ec2.natGateways := 1;
       ec2.subnetConfiguration :=
         [ {| ec2.cidrMask := 24; ec2.name := "public";
              ec2.subnetType := ec2.PUBLIC |};
           {| ec2.cidrMask := 24; ec2.name := "private";
              ec2.subnetType := ec2.PRIVATE_WITH_EGRESS |} ] |}.

Definition createBucket : M ConstructId :=
  new_Bucket "Bucket".

Definition createEcsCluster (vpc : ConstructId) : M ConstructId :=
  new_Cluster "Cluster" {| ecs.vpc := vpc |}.

Definition createLoadBalancedEcsService
    (ecsCluster : ConstructId)
    (rdsCluster : rds.DatabaseCluster)
    (cacheCluster : elasticache.CfnCacheCluster)
    (rdsSecurityGroup cacheSecurityGroup : ec2.SecurityGroup)
    (certificate : ConstructId)
    (bucket : ConstructId)
  : M ecsPatterns.ApplicationLoadBalancedFargateService :=
  service <- new_ApplicationLoadBalancedFargateService "Service"
    {| ecsPatterns.cluster := ecsCluster;
       ecsPatterns.memoryLimitMiB := 1024;
       ecsPatterns.listenerPort := 443;
       ecsPatterns.taskImageOptions :=
         {| ecs.image := ecs.fromAsset "./app";
            ecs.containerPort := CONTAINER_PORT cfg;
            ecs.environment :=
              [ ("DB_HOST", rds.clusterEndpoint_hostname rdsCluster);
                ("DB_USER",
                 match rds.secret rdsCluster with
                 | Some s => rds.unsafeUnwrap (rds.secretValueFromJson s "username")
                 | None => Undefined
                 end);
                ("DB_PASSWORD",
                 match rds.secret rdsCluster with
                 | Some s => rds.unsafeUnwrap (rds.secretValueFromJson s "password")
                 | None => Undefined
                 end);
                ("DB_NAME", Lit "wordpress");
                ("CACHE_HOST", elasticache.attrRedisEndpointAddress cacheCluster) ] |};
       ecsPatterns.desiredCount := 2;
       ecsPatterns.certificate := certificate |} ;;
  configureHealthCheck (ecsPatterns.targetGroup service)
    {| ecs.path := CONTAINER_HEALTHCHECK_PATH cfg |} ;;;
  addIngressRule rdsSecurityGroup
    (nth_error (ecs.connections_securityGroups (ecsPatterns.service service)) 0)
    (ec2.tcp 3306) ;;;
  addIngressRule cacheSecurityGroup
    (nth_error (ecs.connections_securityGroups (ecsPatterns.service service)) 0)
    (ec2.tcp 6379) ;;;
  scaling <- autoScaleTaskCount (ecsPatterns.service service)
    {| ecs.minCapacity := 1; ecs.maxCapacity := 3 |} ;;
  scaleOnCpuUtilization scaling "CpuScaling" 50 ;;;
  scaleOnRequestCount scaling "RequestScaling" 10000
    (ecsPatterns.targetGroup service) ;;;
  grantReadWrite bucket (ecsPatterns.taskDefinition_taskRole service) ;;;
  ret service.

Definition createRdsCluster (vpc : ConstructId)
  : M (ec2.SecurityGroup * rds.DatabaseCluster) :=
  rdsSecurityGroup <- new_SecurityGroup "RdsSecurityGroup"
    {| ec2.vpc := vpc;
       ec2.description := "Security group for RDS cluster" |} ;;
  rdsCluster <- new_DatabaseCluster "Database"
    {| rds.engine := rds.auroraMysql rds.VER_3_07_1;
       rds.writer :=
         rds.provisioned "writer" (ec2.of_ ec2.M7G ec2.MEDIUM);
       rds.readers :=
         [ rds.provisioned "reader" (ec2.of_ ec2.M7G ec2.MEDIUM) ];
       rds.defaultDatabaseName := "mysql";
       rds.vpc := vpc;
       rds.securityGroups := [ ec2.sg_node rdsSecurityGroup ] |} ;;
  ret (rdsSecurityGroup, rdsCluster).

Definition createCacheCluster (vpc : ConstructId)
  : M (ec2.SecurityGroup * elasticache.CfnCacheCluster) :=
  cacheSecurityGroup <- new_SecurityGroup "CacheSecurityGroup"
    {| ec2.vpc := vpc;
       ec2.description := "Security group for Redis cache cluster" |} ;;
  cacheCluster <- new_CfnCacheCluster "CacheCluster"
    {| elasticache.engine := "redis";
       elasticache.engineVersion := "7.0";
       elasticache.numCacheNodes := 2;
       elasticache.cacheNodeType := "cache.t6g.large";
       elasticache.vpcSecurityGroupIds :=
         [ ec2.securityGroupId cacheSecurityGroup ] |} ;;
  ret (cacheSecurityGroup, cacheCluster).

Definition createWafWebAcl : M wafv2.CfnWebACL :=
  new_CfnWebACL "WebAcl"
    {| wafv2.defaultAction := wafv2.allow;
       wafv2.scope := "CLOUDFRONT";
       wafv2.rules := map_index managedRule 0 managedRuleNames;
       wafv2.visibilityConfig :=
         {| wafv2.cloudWatchMetricsEnabled := true;
            wafv2.metricName := "WebAcl";
            wafv2.sampledRequestsEnabled := true |} |}.

Definition createCloudfrontDistribution
    (route53Zone : route53.IHostedZone)
    (certificate : ConstructId)
    (loadBalancedEcsService : ecsPatterns.ApplicationLoadBalancedFargateService)
    (wafWebAcl : wafv2.CfnWebACL)
  : M ConstructId :=
  let origin :=
    {| cloudfront.origin_loadBalancer :=
         elbv2.lb_owner (ecsPatterns.loadBalancer loadBalancedEcsService);
       cloudfront.protocolPolicy := cloudfront.HTTPS_ONLY;
       cloudfront.httpPort := 80;
       cloudfront.httpsPort := 443 |} in
  distribution <- new_Distribution "Distribution"
    {| cloudfront.defaultBehavior :=
         {| cloudfront.origin := origin;
            cloudfront.viewerProtocolPolicy := cloudfront.REDIRECT_TO_HTTPS;
            cloudfront.allowedMethods := cloudfront.ALLOW_ALL;
            cloudfront.cachedMethods := cloudfront.CACHE_GET_HEAD_OPTIONS |};
       cloudfront.domainNames :=
         [ route53.zoneName (route53.zone_attrs route53Zone) ];
       cloudfront.certificate := Some certificate;
       cloudfront.webAclId := Some (wafv2.attrArn wafWebAcl) |} ;;
  ret distribution.

Definition createRoute53Record
    (route53Zone : route53.IHostedZone)
    (cloudfrontDistribution : ConstructId) : M unit :=
  new_ARecord "ARecord"
    {| route53.target := route53.fromAlias_CloudFrontTarget cloudfrontDistribution;
       route53.zone := route53Zone |}.

(** The body of the constructor after [super(scope, id, props)]. *)
Definition Stack_body : M unit :=
  route53Zone <- importRoute53Zone ;;
  vpc <- createVpc ;;
  wafWebAcl <- createWafWebAcl ;;
  bucket <- createBucket ;;
  '(rdsSecurityGroup, rdsCluster) <- createRdsCluster vpc ;;
  '(cacheSecurityGroup, cacheCluster) <- createCacheCluster vpc ;;
  ecsCluster <- createEcsCluster vpc ;;
  certificate <- createCertificate route53Zone ;;
  loadBalancedEcsService <- createLoadBalancedEcsService
    ecsCluster rdsCluster cacheCluster rdsSecurityGroup cacheSecurityGroup
    certificate bucket ;;
  cloudfrontDistribution <- createCloudfrontDistribution
    route53Zone certificate loadBalancedEcsService wafWebAcl ;;
  createRoute53Record route53Zone cloudfrontDistribution.

End Stack.

(** ** The resource graph

    The graph of a build pass is the tree the constructor body leaves in the
    stack: its nodes are the constructs with their properties, its edges the
    references a construct holds to other constructs. *)

Definition build (cfg : Config) : Result Tree :=
  match Stack_body cfg [] with
  | Ok (_, t) => Ok t
  | Err e => Err e
  end.

(** The token-valued properties the stack passes to a construct, each under
    its name; [held_toks] below adds the tokens the library derives. *)
Definition toks (r : Resource) : list (string * Tok) :=
  match r with
  | R_CfnCacheCluster p =>
      map (fun t => ("vpcSecurityGroupIds", t)) (elasticache.vpcSecurityGroupIds p)
  | R_Service p _ _ _ =>
      ecs.environment (ecsPatterns.taskImageOptions p)
  | R_Distribution p =>
      match cloudfront.webAclId p with
      | Some t => [("webAclId", t)]
      | None => []
      end
  | _ => []
  end.

(** The constructs a construct is built from: the handles among the
    properties the stack passes, the constructs the tokens among them
    resolve against and, for a service, the buckets its task role was
    granted.  The parts of one construct (the target group a scaling policy
    tracks) are not edges.  The peers of ingress rules, which
    [ingress_peers] lists, are state the stack adds to a group after its
    construction; [references] below counts them and what the library
    derives as well. *)
Definition deps (r : Resource) : list ConstructId :=
  match r with
  | R_HostedZone _ => []
  | R_Vpc _ => []
  | R_CfnWebACL _ => []
  | R_Bucket => []
  | R_SecurityGroup p _ => [ec2.vpc p]
  | R_DatabaseCluster p => rds.vpc p :: rds.securityGroups p
  | R_CfnCacheCluster _ => flat_map (fun kt => tok_refs (snd kt)) (toks r)
  | R_Cluster p => [ecs.vpc p]
  | R_Certificate p =>
      match acm.validation p with acm.fromDns z => [route53.zone_node z] end
  | R_Service p _ _ g =>
      ecsPatterns.cluster p :: ecsPatterns.certificate p
        :: flat_map (fun kt => tok_refs (snd kt)) (toks r)
        ++ map s3.resource g
  | R_Distribution p =>
      cloudfront.origin_loadBalancer (cloudfront.origin (cloudfront.defaultBehavior p))
        :: match cloudfront.certificate p with Some c => [c] | None => [] end
        ++ flat_map (fun kt => tok_refs (snd kt)) (toks r)
  | R_ARecord p =>
      match route53.target p with
      | route53.fromAlias_CloudFrontTarget d => [d; route53.zone_node (route53.zone p)]
      end
  | R_CfnMapping _ => []
  end.

Definition ingress (r : Resource) : list ec2.IngressRule :=
  match r with
  | R_SecurityGroup _ rules => rules
  | _ => []
  end.

Definition ingress_peers (r : Resource) : list ConstructId :=
  map (fun rule => match ec2.peer rule with ec2.SecurityGroupPeer c => c end) (ingress r).

Definition depends_on (g : Tree) (a b : ConstructId) : Prop :=
  exists r, In (a, r) g /\ In b (deps r).

Definition acyclic (g : Tree) : Prop :=
  forall a, ~ clos_trans ConstructId (depends_on g) a a.

(** [d] was constructed strictly before [id]. *)
Definition built_before (g : Tree) (d id : ConstructId) : Prop :=
  exists i j rd r,
    (j < i)%nat /\ nth_error g j = Some (d, rd) /\ nth_error g i = Some (id, r).

(** The executable check behind [built_before]: walking the tree in
    construction order, every reference names a construct seen earlier and
    no identifier comes twice. *)
Fixpoint built_in_order (earlier : list ConstructId) (t : Tree) : bool :=
  match t with
  | [] => true
  | (id, r) :: t' =>
      forallb (fun d => existsb (String.eqb d) earlier) (deps r)
      && negb (existsb (String.eqb id) earlier)
      && built_in_order (earlier ++ [id]) t'
  end.

Definition is_service (r : Resource) : bool :=
  match r with R_Service _ _ _ _ => true | _ => false end.
Definition is_distribution (r : Resource) : bool :=
  match r with R_Distribution _ => true | _ => false end.
Definition is_certificate (r : Resource) : bool :=
  match r with R_Certificate _ => true | _ => false end.
Definition is_webacl (r : Resource) : bool :=
  match r with R_CfnWebACL _ => true | _ => false end.

Definition count_kind (k : Resource -> bool) (g : Tree) : nat :=
  length (filter (fun c => k (snd c)) g).

Fixpoint env_lookup (env : list (string * Tok)) (key : string) : option Tok :=
  match env with
  | [] => None
  | (k, v) :: env' => if String.eqb k key then Some v else env_lookup env' key
  end.

(** The names a certificate covers. *)
Definition certificate_domains (p : acm.CertificateProps) : list string :=
  acm.domainName p :: acm.subjectAlternativeNames p.

Definition priorities (rules : list wafv2.Rule) : list Z :=
  map wafv2.priority rules.

(** The configuration of scenario A: the constants of the source with the
    zone name "example.com". *)
Definition scenario_A : Config :=
  {| HOSTED_ZONE_ID := HOSTED_ZONE_ID source_constants;
     ZONE_NAME := "example.com";
     CONTAINER_PORT := CONTAINER_PORT source_constants;
     CONTAINER_HEALTHCHECK_PATH := CONTAINER_HEALTHCHECK_PATH source_constants |}.

(** A firewall policy with two rules at priority 2. *)
Definition two_rules_at_priority_2 : wafv2.CfnWebACLProps :=
  {| wafv2.defaultAction := wafv2.allow;
     wafv2.scope := "CLOUDFRONT";
     wafv2.rules :=
       [ managedRule "AWSManagedRulesCommonRuleSet" 0;
         managedRule "AWSManagedRulesPHPRuleSet" 0 ];
     wafv2.visibilityConfig :=
       {| wafv2.cloudWatchMetricsEnabled := true;
          wafv2.metricName := "WebAcl";
          wafv2.sampledRequestsEnabled := true |} |}.

(** The metric names of a rule list, in order. *)
Definition metricNames (rules : list wafv2.Rule) : list string :=
  map (fun r => wafv2.metricName (wafv2.rule_visibilityConfig r)) rules.

(** The network a construct is placed in, for the constructs that take
    one. *)
Definition vpc_of (r : Resource) : option ConstructId :=
  match r with
  | R_SecurityGroup p _ => Some (ec2.vpc p)
  | R_DatabaseCluster p => Some (rds.vpc p)
  | R_Cluster p => Some (ecs.vpc p)
  | _ => None
  end.

Definition is_vpc (r : Resource) : bool :=
  match r with R_Vpc _ => true | _ => false end.

(** *** What the library derives for a construct

    The stack gives the database cluster no credentials.  The cluster then
    generates a secret for its master user, a template with the default user
    name of the engine and a password key whose value is generated at
    deployment, and takes its own master user name and password by reference
    from that secret. *)
Record DatabaseSecret := {
  secret_username : string;
  secret_generateStringKey : string }.

Definition defaultUsername (e : rds.DatabaseClusterEngine) : string :=
  match e with rds.auroraMysql _ => "admin" end.

Definition generatedSecret (p : rds.DatabaseClusterProps) : DatabaseSecret :=
  {| secret_username := defaultUsername (rds.engine p);
     secret_generateStringKey := "password" |}.

(** The alias of a record whose target is a distribution: the zone of
    CloudFront, looked up in the mapping, and the domain name of the
    distribution. *)
Definition aliasTarget (p : route53.ARecordProps) : list (string * Tok) :=
  match route53.target p with
  | route53.fromAlias_CloudFrontTarget d =>
      [ ("aliasTarget.hostedZoneId", FindInMap CloudFrontPartitionHostedZoneIdMap "zoneId");
        ("aliasTarget.dnsName", Attr d "DomainName") ]
  end.

(** The tokens the construct registered under [id] holds: those the stack
    passed and those the library derived. *)
Definition held_toks (id : ConstructId) (r : Resource) : list (string * Tok) :=
  match r with
  | R_DatabaseCluster _ =>
      [ ("masterUsername", SecretJson id "username");
        ("masterUserPassword", SecretJson id "password") ]
  | R_ARecord p => aliasTarget p
  | _ => toks r
  end.

(** A load-balanced service is placed in the network of its cluster. *)
Definition placement (g : Tree) (r : Resource) : list ConstructId :=
  match r with
  | R_Service p _ _ _ =>
      match tryFindChild g (ecsPatterns.cluster p) with
      | Some (R_Cluster cp) => [ecs.vpc cp]
      | _ => []
      end
  | _ => []
  end.

(** Every construct a construct of the finished graph refers to: the
    references it was built from ([deps]), the peers of the ingress rules it
    was given later, the network it is placed in and, for a record, the
    constructs its alias resolves against. *)
Definition references (g : Tree) (r : Resource) : list ConstructId :=
  deps r ++ ingress_peers r ++ placement g r
    ++ match r with
       | R_ARecord p => flat_map (fun kt => tok_refs (snd kt)) (aliasTarget p)
       | _ => []
       end.

Definition refers_to (g : Tree) (a b : ConstructId) : Prop :=
  exists r, In (a, r) g /\ In b (references g r).

Definition reference_pairs (g : Tree) : list (ConstructId * ConstructId) :=
  flat_map (fun c => map (fun d => (fst c, d)) (references g (snd c))) g.

Ltac in_tree := simpl; repeat (first [left; reflexivity | right]).

Ltac run_build :=
  match goal with
  | |- context [build ?c] =>
      let r := eval vm_compute in (build c) in
      change (build c) with r
  end.

Ltac run_build_in H :=
  match type of H with
  | context [build ?c] =>
      let r := eval vm_compute in (build c) in
      change (build c) with r in H
  end;
  injection H as <-.

(** C9. The schema name bound into the service's environment, "wordpress",
    differs from the default schema name of the cluster, "mysql", which is
    the only database the cluster creates. *)
Theorem service_schema_is_not_cluster_default (cfg : Config) :
  exists g sp h s gr dp name,
    build cfg = Ok g
    /\ tryFindChild g "Service" = Some (R_Service sp h s gr)
    /\ tryFindChild g "Database" = Some (R_DatabaseCluster dp)
    /\ env_lookup (ecs.environment (ecsPatterns.taskImageOptions sp)) "DB_HOST"
       = Some (Attr "Database" "Endpoint.Address")
    /\ env_lookup (ecs.environment (ecsPatterns.taskImageOptions sp)) "DB_NAME"
       = Some (Lit name)
    /\ name = "wordpress"
    /\ rds.defaultDatabaseName dp = "mysql"
    /\ name <> rds.defaultDatabaseName dp.
Proof.
  destruct cfg as [zid zn port hc].
  run_build.
  do 7 eexists.
  repeat split; try reflexivity.
  discriminate.
Qed.

(** ** Construction order and acyclicity *)

Lemma existsb_eqb_In (d : string) (l : list string) :
  existsb (String.eqb d) l = true <-> In d l.
Proof.
  rewrite existsb_exists. split.
  - intros [x [Hin Heq]]. apply String.eqb_eq in Heq. now subst.
  - intros Hin. exists d. split; [assumption | apply String.eqb_refl].
Qed.

Lemma built_in_order_refs (t : Tree) :
  forall earlier, built_in_order earlier t = true ->
  forall i id r d, nth_error t i = Some (id, r) -> In d (deps r) ->
    In d earlier \/ exists j rd, (j < i)%nat /\ nth_error t j = Some (d, rd).
Proof.
  induction t as [| [id0 r0] t IH]; intros earlier Hchk i id r d Hnth Hd.
  - destruct i; discriminate.
  - simpl in Hchk.
    apply andb_true_iff in Hchk as [Hchk Hrest].
    apply andb_true_iff in Hchk as [Hdeps _].
    destruct i as [| i]; simpl in Hnth.
    + injection Hnth as <- <-.
      left. rewrite forallb_forall in Hdeps.
      apply existsb_eqb_In. now apply Hdeps.
    + destruct (IH _ Hrest i id r d Hnth Hd) as [Hin | [j [rd [Hlt Hj]]]].
      * apply in_app_or in Hin as [Hin | [<- | []]].
        -- now left.
        -- right. exists 0%nat, r0. split; [lia | reflexivity].
      * right. exists (S j), rd. split; [lia | exact Hj].
Qed.

Lemma built_in_order_fresh (t : Tree) :
  forall earlier, built_in_order earlier t = true ->
    NoDup (map fst t) /\ forall id, In id (map fst t) -> ~ In id earlier.
Proof.
  induction t as [| [id0 r0] t IH]; intros earlier Hchk.
  - split; [constructor | intros id []].
  - simpl in Hchk.
    apply andb_true_iff in Hchk as [Hchk Hrest].
    apply andb_true_iff in Hchk as [_ Hnew].
    apply negb_true_iff in Hnew.
    destruct (IH _ Hrest) as [Hnd Hfresh].
    assert (Hid0 : ~ In id0 earlier).
    { intros Hin. apply existsb_eqb_In in Hin. congruence. }
    split.
    + simpl. constructor; [| exact Hnd].
      intros Hin. apply (Hfresh _ Hin). apply in_or_app. right. now left.
    + intros id [<- | Hin]; [exact Hid0 |].
      intros Hearlier. apply (Hfresh _ Hin). apply in_or_app. now left.
Qed.

Lemma built_in_order_before (g : Tree) :
  built_in_order [] g = true ->
  forall id r d, In (id, r) g -> In d (deps r) -> built_before g d id.
Proof.
  intros Hchk id r d Hin Hd.
  destruct (In_nth_error _ _ Hin) as [i Hi].
  destruct (built_in_order_refs g [] Hchk i id r d Hi Hd) as [[] | [j [rd [Hlt Hj]]]].
  now exists i, j, rd, r.
Qed.

Lemma nth_error_fst (g : Tree) (i : nat) (id : ConstructId) (r : Resource) :
  nth_error g i = Some (id, r) -> nth_error (map fst g) i = Some id.
Proof.
  intros H. rewrite nth_error_map, H. reflexivity.
Qed.

(** Along a chain of references the position in the construction order
    strictly decreases. *)
Lemma chain_goes_back (g : Tree) :
  built_in_order [] g = true ->
  forall a b, clos_trans ConstructId (depends_on g) a b ->
    exists i j, (j < i)%nat
      /\ nth_error (map fst g) i = Some a /\ nth_error (map fst g) j = Some b.
Proof.
  intros Hchk a b Hab.
  destruct (built_in_order_fresh g [] Hchk) as [Hnd _].
  induction Hab as [a b [r [Hin Hd]] | a b c _ IH1 _ IH2].
  - destruct (built_in_order_before g Hchk a r b Hin Hd)
      as [i [j [rd [r' [Hlt [Hj Hi]]]]]].
    exists i, j. repeat split; [exact Hlt | |]; eapply nth_error_fst; eassumption.
  - destruct IH1 as [i1 [j1 [Hlt1 [Hi1 Hj1]]]].
    destruct IH2 as [i2 [j2 [Hlt2 [Hi2 Hj2]]]].
    assert (j1 = i2).
    { apply (proj1 (NoDup_nth_error (map fst g)) Hnd).
      - apply nth_error_Some. congruence.
      - congruence. }
    subst. exists i1, j2. repeat split; [lia | assumption | assumption].
Qed.

Lemma built_in_order_acyclic (g : Tree) :
  built_in_order [] g = true -> acyclic g.
Proof.
  intros Hchk a Hloop.
  destruct (built_in_order_fresh g [] Hchk) as [Hnd _].
  destruct (chain_goes_back g Hchk a a Hloop) as [i [j [Hlt [Hi Hj]]]].
  assert (i = j).
  { apply (proj1 (NoDup_nth_error (map fst g)) Hnd).
    - apply nth_error_Some. congruence.
    - congruence. }
  lia.
Qed.




(** ** The service: scaling and desired count *)

(** C7. The scaling controller of the service is bound to [1, 3] and
    carries exactly two policies: a CPU utilization target of 50 percent and
    a request count target of 10000 requests per target of the service's
    own target group. *)
Theorem service_scaling_policies (cfg : Config) :
  exists g sp h sc gr,
    build cfg = Ok g
    /\ tryFindChild g "Service" = Some (R_Service sp h (Some sc) gr)
    /\ count_kind is_service g = 1%nat
    /\ ecs.minCapacity (ecs.bounds sc) = 1
    /\ ecs.maxCapacity (ecs.bounds sc) = 3
    /\ length (ecs.policies sc) = 2%nat
    /\ ecs.policies sc =
       [ ("CpuScaling", ecs.CpuUtilization 50);
         ("RequestScaling", ecs.RequestCount 10000 {| elbv2.tg_owner := "Service" |}) ].
Proof.
  destruct cfg as [zid zn port hc].
  run_build.
  do 5 eexists.
  repeat split; reflexivity.
Qed.

(** C10. The desired task count of the service, 2, lies within the bounds
    of its scaling controller: 1 <= 2 <= 3. *)
Theorem desired_count_within_scaling_bounds (cfg : Config) :
  exists g sp h sc gr,
    build cfg = Ok g
    /\ tryFindChild g "Service" = Some (R_Service sp h (Some sc) gr)
    /\ ecsPatterns.desiredCount sp = 2
    /\ ecs.minCapacity (ecs.bounds sc) <= ecsPatterns.desiredCount sp
    /\ ecsPatterns.desiredCount sp <= ecs.maxCapacity (ecs.bounds sc).
Proof.
  destruct cfg as [zid zn port hc].
  run_build.
  do 5 eexists.
  split; [reflexivity |].
  split; [reflexivity |].
  simpl. lia.
Qed.

(** ** The edge distribution *)

(** C8. The distribution reaches its origin, the load balancer of the
    service, under the HTTPS-only origin policy: the origin declares port 80
    and port 443, and whatever the viewer's scheme the connection goes to
    443, where the service listens.  Viewers arriving over HTTP are
    redirected to HTTPS.  The distribution names one certificate and one
    firewall policy, the only ones of the graph. *)
Theorem distribution_policies (cfg : Config) :
  exists g dp sp h sc gr cp wp,
    build cfg = Ok g
    /\ tryFindChild g "Distribution" = Some (R_Distribution dp)
    /\ tryFindChild g "Service" = Some (R_Service sp h sc gr)
    /\ cloudfront.origin_loadBalancer (cloudfront.origin (cloudfront.defaultBehavior dp))
       = "Service"
    /\ cloudfront.protocolPolicy (cloudfront.origin (cloudfront.defaultBehavior dp))
       = cloudfront.HTTPS_ONLY
    /\ cloudfront.httpPort (cloudfront.origin (cloudfront.defaultBehavior dp)) = 80
    /\ cloudfront.httpsPort (cloudfront.origin (cloudfront.defaultBehavior dp)) = 443
    /\ (forall viewer,
          cloudfront.origin_port (cloudfront.origin (cloudfront.defaultBehavior dp)) viewer
          = 443)
    /\ ecsPatterns.listenerPort sp = 443
    /\ cloudfront.viewerProtocolPolicy (cloudfront.defaultBehavior dp)
       = cloudfront.REDIRECT_TO_HTTPS
    /\ cloudfront.viewer_outcome
         (cloudfront.viewerProtocolPolicy (cloudfront.defaultBehavior dp)) cloudfront.HTTP
       = cloudfront.RedirectedToHttps
    /\ cloudfront.certificate dp = Some "Certificate"
    /\ tryFindChild g "Certificate" = Some (R_Certificate cp)
    /\ count_kind is_certificate g = 1%nat
    /\ cloudfront.webAclId dp = Some (Attr "WebAcl" "Arn")
    /\ tryFindChild g "WebAcl" = Some (R_CfnWebACL wp)
    /\ count_kind is_webacl g = 1%nat.
Proof.
  destruct cfg as [zid zn port hc].
  run_build.
  do 8 eexists.
  repeat split; reflexivity.
Qed.

(** C3, as the code has it.  For every configuration whose zone name is
    "example.com" the graph has exactly one distribution and exactly one
    certificate; the certificate covers "example.com" and "*.example.com";
    the distribution is bound to "example.com" alone, uses that certificate,
    and every name it is bound to is covered by the certificate. *)
Theorem scenario_A_distribution_domains (cfg : Config)
    (Hzone : ZONE_NAME cfg = "example.com") :
  exists g dp cp,
    build cfg = Ok g
    /\ count_kind is_distribution g = 1%nat
    /\ count_kind is_certificate g = 1%nat
    /\ tryFindChild g "Distribution" = Some (R_Distribution dp)
    /\ tryFindChild g "Certificate" = Some (R_Certificate cp)
    /\ cloudfront.certificate dp = Some "Certificate"
    /\ certificate_domains cp = [ "example.com"; "*.example.com" ]
    /\ cloudfront.domainNames dp = [ "example.com" ]
    /\ incl (cloudfront.domainNames dp) (certificate_domains cp).
Proof.
  destruct cfg as [zid zn port hc]. simpl in Hzone. subst zn.
  run_build.
  do 3 eexists.
  repeat split; try reflexivity.
  intros d [<- | []]. now left.
Qed.

Lemma scenario_A_distribution_domains_witness :
  ZONE_NAME scenario_A = "example.com" /\
  exists g dp cp,
    build scenario_A = Ok g
    /\ count_kind is_distribution g = 1%nat
    /\ count_kind is_certificate g = 1%nat
    /\ tryFindChild g "Distribution" = Some (R_Distribution dp)
    /\ tryFindChild g "Certificate" = Some (R_Certificate cp)
    /\ cloudfront.certificate dp = Some "Certificate"
    /\ certificate_domains cp = [ "example.com"; "*.example.com" ]
    /\ cloudfront.domainNames dp = [ "example.com" ]
    /\ incl (cloudfront.domainNames dp) (certificate_domains cp).
Proof.
  split; [reflexivity |].
  apply (scenario_A_distribution_domains scenario_A). reflexivity.
Defined.

(** C3, as stated, fails: in scenario A the distribution is not bound to
    "*.example.com". *)
Lemma scenario_A_distribution_lacks_wildcard :
  exists g dp,
    build scenario_A = Ok g
    /\ tryFindChild g "Distribution" = Some (R_Distribution dp)
    /\ ~ In "*.example.com" (cloudfront.domainNames dp).
Proof.
  run_build.
  do 2 eexists.
  split; [reflexivity |].
  split; [reflexivity |].
  simpl. intros [H | []]. discriminate H.
Qed.

(** ** The firewall policy *)

Lemma managed_priorities_lower_bound (names : list string) :
  forall index p,
    In p (priorities (map_index managedRule index names)) -> index + 2 <= p.
Proof.
  induction names as [| n names IH]; intros index p Hin.
  - destruct Hin.
  - destruct Hin as [<- | Hin].
    + simpl. lia.
    + apply IH in Hin. lia.
Qed.

Lemma managed_priorities_sorted (names : list string) :
  forall index,
    StronglySorted Z.lt (priorities (map_index managedRule index names)).
Proof.
  induction names as [| n names IH]; intros index.
  - constructor.
  - simpl. constructor.
    + apply IH.
    + apply Forall_forall. intros p Hin.
      apply managed_priorities_lower_bound in Hin. lia.
Qed.

Lemma strictly_sorted_NoDup (l : list Z) :
  StronglySorted Z.lt l -> NoDup l.
Proof.
  induction 1 as [| a l Hs IH Hall].
  - constructor.
  - constructor; [| exact IH].
    intros Hin. rewrite Forall_forall in Hall.
    specialize (Hall _ Hin). lia.
Qed.

(** C2, as the code has it.  The rules the builder derives from a list of
    rule group names carry the priorities index + 2: strictly increasing
    and pairwise distinct, for the four names of the stack 2, 3, 4, 5.  The
    web ACL construct itself takes any rule list: registering it fails only
    when its identifier is already taken, and otherwise stores the rules as
    given. *)
Theorem waf_priorities_strictly_increasing :
  (forall names index,
      StronglySorted Z.lt (priorities (map_index managedRule index names))
      /\ NoDup (priorities (map_index managedRule index names)))
  /\ (forall cfg, exists g wp,
        build cfg = Ok g
        /\ tryFindChild g "WebAcl" = Some (R_CfnWebACL wp)
        /\ priorities (wafv2.rules wp) = [2; 3; 4; 5])
  /\ (forall id props t,
        new_CfnWebACL id props t =
        match tryFindChild t id with
        | Some _ => Err (DuplicateConstruct id)
        | None => Ok ({| wafv2.acl_node := id; wafv2.attrArn := Attr id "Arn" |},
                      t ++ [(id, R_CfnWebACL props)])
        end).
Proof.
  split; [| split].
  - intros names index. split.
    + apply managed_priorities_sorted.
    + apply strictly_sorted_NoDup, managed_priorities_sorted.
  - intros [zid zn port hc]. run_build.
    do 2 eexists. repeat split; reflexivity.
  - intros id props t. unfold new_CfnWebACL, bind, addChild, ret.
    destruct (tryFindChild t id); reflexivity.
Qed.

(** C2, as stated, fails: a web ACL with two rules at priority 2 is
    constructed without error and registered in the scope. *)
Lemma duplicate_priority_is_accepted :
  priorities (wafv2.rules two_rules_at_priority_2) = [2; 2]
  /\ ~ NoDup (priorities (wafv2.rules two_rules_at_priority_2))
  /\ exists h,
       new_CfnWebACL "WebAcl" two_rules_at_priority_2 []
       = Ok (h, [("WebAcl", R_CfnWebACL two_rules_at_priority_2)]).
Proof.
  split; [reflexivity |].
  split.
  - simpl. intros Hnd. inversion Hnd as [| x l Hnotin _]. apply Hnotin. now left.
  - eexists. reflexivity.
Qed.

(** ** Credentials *)




(** ** Security groups *)

Lemma IngressRule_eqb_eq (a b : ec2.IngressRule) :
  ec2.IngressRule_eqb a b = true <-> a = b.
Proof.
  destruct a as [[x] [p]], b as [[y] [q]].
  unfold ec2.IngressRule_eqb; simpl.
  rewrite andb_true_iff, String.eqb_eq, Z.eqb_eq.
  split.
  - intros [-> ->]. reflexivity.
  - intros H. injection H as -> ->. split; reflexivity.
Qed.

Lemma hasIngressRule_In (rules : list ec2.IngressRule) (rule : ec2.IngressRule) :
  hasIngressRule rules rule = true <-> In rule rules.
Proof.
  unfold hasIngressRule. rewrite existsb_exists. split.
  - intros [x [Hin Heq]]. apply IngressRule_eqb_eq in Heq. now subst.
  - intros Hin. exists rule. split; [assumption | now apply IngressRule_eqb_eq].
Qed.

(** Admitting a source keeps a rule set free of duplicates, and admitting
    it a second time changes nothing. *)
Lemma addDirectIngressRule_NoDup (rules : list ec2.IngressRule) (rule : ec2.IngressRule) :
  NoDup rules -> NoDup (addDirectIngressRule rules rule).
Proof.
  intros Hnd. unfold addDirectIngressRule.
  destruct (hasIngressRule rules rule) eqn:Hhas; [exact Hnd |].
  apply NoDup_app.
  - exact Hnd.
  - repeat constructor. intros [].
  - intros x Hx [<- | []].
    apply hasIngressRule_In in Hx. congruence.
Qed.

Lemma addDirectIngressRule_In (rules : list ec2.IngressRule) (rule : ec2.IngressRule) :
  In rule (addDirectIngressRule rules rule).
Proof.
  unfold addDirectIngressRule.
  destruct (hasIngressRule rules rule) eqn:Hhas.
  - now apply hasIngressRule_In.
  - apply in_or_app. right. now left.
Qed.

Lemma addDirectIngressRule_idempotent (rules : list ec2.IngressRule) (rule : ec2.IngressRule) :
  addDirectIngressRule (addDirectIngressRule rules rule) rule
  = addDirectIngressRule rules rule.
Proof.
  unfold addDirectIngressRule at 1.
  rewrite (proj2 (hasIngressRule_In _ _) (addDirectIngressRule_In rules rule)).
  reflexivity.
Qed.

(** C4. After the build pass the security group of the relational cluster
    admits the security group of the service on port 3306 and the security
    group of the cache cluster admits it on port 6379; the source of every
    ingress rule of the graph is the security group of a service from which
    the group that holds the rule is reachable along references; and no
    group holds two rules with the same source and port. *)
Theorem ingress_back_wiring (cfg : Config) :
  exists g rp rrules cp crules dp kp,
    build cfg = Ok g
    /\ tryFindChild g "Database" = Some (R_DatabaseCluster dp)
    /\ rds.securityGroups dp = [ "RdsSecurityGroup" ]
    /\ tryFindChild g "RdsSecurityGroup" = Some (R_SecurityGroup rp rrules)
    /\ In {| ec2.peer := ec2.SecurityGroupPeer "Service";
             ec2.connection := ec2.tcp 3306 |} rrules
    /\ tryFindChild g "CacheCluster" = Some (R_CfnCacheCluster kp)
    /\ elasticache.vpcSecurityGroupIds kp = [ Attr "CacheSecurityGroup" "GroupId" ]
    /\ tryFindChild g "CacheSecurityGroup" = Some (R_SecurityGroup cp crules)
    /\ In {| ec2.peer := ec2.SecurityGroupPeer "Service";
             ec2.connection := ec2.tcp 6379 |} crules
    /\ (forall id r rule,
          In (id, r) g -> In rule (ingress r) ->
          exists s sp h sc gr,
            ec2.peer rule = ec2.SecurityGroupPeer s
            /\ In (s, R_Service sp h sc gr) g
            /\ clos_trans ConstructId (depends_on g) s id)
    /\ (forall id r,
          In (id, r) g ->
          NoDup (map (fun rule => (ec2.peer rule, ec2.connection rule)) (ingress r))).
Proof.
  destruct cfg as [zid zn port hc].
  run_build.
  do 7 eexists.
  split; [reflexivity |].
  split; [reflexivity |].
  split; [reflexivity |].
  split; [reflexivity |].
  split; [now left |].
  split; [reflexivity |].
  split; [reflexivity |].
  split; [reflexivity |].
  split; [now left |].
  split.
  - intros id r rule Hin Hrule.
    simpl in Hin.
    repeat (destruct Hin as [Hin | Hin];
            [ injection Hin as <- <-; simpl in Hrule | ]);
      try contradiction;
      destruct Hrule as [<- | []];
      do 5 eexists;
      (split; [reflexivity |]);
      (split; [in_tree |]).
    + apply t_trans with (y := "Database"); apply t_step;
        eexists; (split; [in_tree | simpl; tauto]).
    + apply t_trans with (y := "CacheCluster"); apply t_step;
        eexists; (split; [in_tree | simpl; tauto]).
  - intros id r Hin.
    simpl in Hin.
    repeat (destruct Hin as [Hin | Hin];
            [ injection Hin as <- <-; simpl | ]);
      try contradiction;
      repeat constructor; intros [].
Qed.

(** X12.  The rules themselves point forward in the construction order: the
    service they admit is constructed after the group that holds them, which
    is why the group takes them after its construction, as state. *)
Remark ingress_rules_are_late_appends (cfg : Config) :
  exists g,
    build cfg = Ok g
    /\ forall id r s,
         In (id, r) g -> In s (ingress_peers r) -> built_before g id s.
Proof.
  destruct cfg as [zid zn port hc].
  run_build.
  eexists. split; [reflexivity |].
  intros id r s Hin Hs.
  simpl in Hin.
  repeat (destruct Hin as [Hin | Hin];
          [ injection Hin as <- <-; simpl in Hs | ]);
    try contradiction;
    destruct Hs as [<- | []].
  - exists 10%nat, 4%nat. do 2 eexists.
    split; [lia |]. split; reflexivity.
  - exists 10%nat, 6%nat. do 2 eexists.
    split; [lia |]. split; reflexivity.
Qed.



(** * Further properties of the builders *)

(** ** Strings *)

Lemma length_append (a b : string) :
  String.length (a ++ b)%string = (String.length a + String.length b)%nat.
Proof.
  induction a as [| c a IH]; simpl; [reflexivity | now rewrite IH].
Qed.

Lemma append_cancel_r (a b s : string) :
  (a ++ s)%string = (b ++ s)%string -> a = b.
Proof.
  revert b. induction a as [| c a IH]; intros [| d b] H; simpl in H.
  - reflexivity.
  - apply (f_equal String.length) in H. simpl in H.
    rewrite length_append in H. lia.
  - apply (f_equal String.length) in H. simpl in H.
    rewrite length_append in H. lia.
  - injection H as -> H. f_equal. now apply IH.
Qed.

Lemma wildcard_differs (z : string) : ("*." ++ z)%string <> z.
Proof.
  intros H. apply (f_equal String.length) in H.
  rewrite length_append in H. simpl in H. lia.
Qed.

(** ** The rules of the firewall policy, for any list of names *)

Lemma map_index_nth_error {A B} (f : A -> Z -> B) (l : list A) :
  forall index k,
    nth_error (map_index f index l) k
    = option_map (fun x => f x (index + Z.of_nat k)) (nth_error l k).
Proof.
  induction l as [| x l IH]; intros index k.
  - destruct k; reflexivity.
  - destruct k as [| k].
    + simpl. now rewrite Z.add_0_r.
    + cbn [map_index nth_error]. rewrite IH.
      destruct (nth_error l k); simpl; [| reflexivity].
      do 2 f_equal. lia.
Qed.

Lemma map_index_length {A B} (f : A -> Z -> B) (l : list A) :
  forall index, length (map_index f index l) = length l.
Proof.
  induction l as [| x l IH]; intros index; simpl; [reflexivity | now rewrite IH].
Qed.

Lemma managed_rule_names (names : list string) :
  forall index, map wafv2.name (map_index managedRule index names) = names.
Proof.
  induction names as [| n names IH]; intros index; simpl; [reflexivity | now rewrite IH].
Qed.

Lemma managed_rule_metrics (names : list string) :
  forall index,
    metricNames (map_index managedRule index names)
    = map (fun n => (n ++ "Metric")%string) names.
Proof.
  induction names as [| n names IH]; intros index; simpl; [reflexivity |].
  f_equal. apply IH.
Qed.

(** X1.  The rule at position [k] of the list the builder derives from a list of
    names is the rule of the [k]-th name with priority [k + 2]; past the
    end of the names there is no rule. *)
Theorem managed_rule_at_position (names : list string) (k : nat) :
  nth_error (map_index managedRule 0 names) k
  = option_map (fun n => managedRule n (Z.of_nat k)) (nth_error names k)
  /\ nth_error (priorities (map_index managedRule 0 names)) k
     = option_map (fun _ => Z.of_nat k + 2) (nth_error names k)
  /\ length (map_index managedRule 0 names) = length names.
Proof.
  split; [| split].
  - rewrite map_index_nth_error. reflexivity.
  - unfold priorities. rewrite nth_error_map, map_index_nth_error.
    destruct (nth_error names k); reflexivity.
  - apply map_index_length.
Qed.

(** X2.  Every rule keeps the name it was derived from, both as its own name and
    as the name of its rule group, and its metric name is that name followed
    by "Metric"; distinct names therefore give distinct metric names. *)
Theorem managed_rule_metric_names (names : list string) (index : Z) :
  map wafv2.name (map_index managedRule index names) = names
  /\ (forall r, In r (map_index managedRule index names) ->
        wafv2.group_name (wafv2.statement r) = wafv2.name r
        /\ wafv2.metricName (wafv2.rule_visibilityConfig r)
           = (wafv2.name r ++ "Metric")%string)
  /\ (NoDup names -> NoDup (metricNames (map_index managedRule index names))).
Proof.
  split; [apply managed_rule_names | split].
  - revert index. induction names as [| n names IH]; intros index r Hin.
    + destruct Hin.
    + destruct Hin as [<- | Hin]; [split; reflexivity | eapply IH; eassumption].
  - intros Hnd. rewrite managed_rule_metrics.
    induction Hnd as [| n names Hnotin _ IH]; simpl; constructor; [| exact IH].
    intros Hin. apply in_map_iff in Hin as [m [Heq Hm]].
    apply append_cancel_r in Heq. subst m. contradiction.
Qed.

Lemma managed_rule_metric_names_witness :
  NoDup managedRuleNames
  /\ NoDup (metricNames (map_index managedRule 0 managedRuleNames)).
Proof.
  assert (Hnd : NoDup managedRuleNames).
  { unfold managedRuleNames.
    repeat constructor; simpl; intuition discriminate. }
  split; [exact Hnd |].
  exact (proj2 (proj2 (managed_rule_metric_names managedRuleNames 0)) Hnd).
Defined.

(** ** Lookup in a scope after registration and after a state change *)

Lemma tryFindChild_app (t : Tree) (id : ConstructId) (r : Resource) (k : ConstructId) :
  tryFindChild (t ++ [(id, r)]) k
  = match tryFindChild t k with
    | Some x => Some x
    | None => if String.eqb id k then Some r else None
    end.
Proof.
  induction t as [| [i r0] t IH]; simpl.
  - reflexivity.
  - destruct (String.eqb i k); [reflexivity | exact IH].
Qed.

Lemma tryFindChild_replaceChild (t : Tree) (id : ConstructId) (r : Resource)
    (k : ConstructId) :
  tryFindChild (replaceChild t id r) k
  = if String.eqb id k
    then match tryFindChild t id with Some _ => Some r | None => None end
    else tryFindChild t k.
Proof.
  induction t as [| [i r0] t IH]; simpl.
  - destruct (String.eqb id k); reflexivity.
  - destruct (String.eqb i id) eqn:Eid; simpl.
    + apply String.eqb_eq in Eid. subst i.
      destruct (String.eqb id k); reflexivity.
    + rewrite IH.
      destruct (String.eqb id k) eqn:Ek; [| reflexivity].
      apply String.eqb_eq in Ek. subst k.
      rewrite Eid. reflexivity.
Qed.

Lemma map_fst_replaceChild (t : Tree) (id : ConstructId) (r : Resource) :
  map fst (replaceChild t id r) = map fst t.
Proof.
  induction t as [| [i r0] t IH]; simpl; [reflexivity |].
  destruct (String.eqb i id); simpl; [reflexivity | now rewrite IH].
Qed.

Lemma modify_ok (id : ConstructId) (f : Resource -> Result Resource)
    (t : Tree) (r r' : Resource) :
  tryFindChild t id = Some r -> f r = Ok r' ->
  modify id f t = Ok (tt, replaceChild t id r').
Proof.
  intros Hfind Hf. unfold modify. now rewrite Hfind, Hf.
Qed.

Lemma addDirectIngressRule_incl (rules : list ec2.IngressRule) (rule : ec2.IngressRule) :
  incl rules (addDirectIngressRule rules rule).
Proof.
  unfold addDirectIngressRule.
  destruct (hasIngressRule rules rule).
  - apply incl_refl.
  - apply incl_appl, incl_refl.
Qed.

(** ** The service builder in an arbitrary scope *)

Ltac lookup :=
  repeat (rewrite ?tryFindChild_replaceChild, ?tryFindChild_app, ?String.eqb_refl).

Lemma service_builder_run (cfg : Config) (ecsCluster : ConstructId)
    (rdsCluster : rds.DatabaseCluster) (cacheCluster : elasticache.CfnCacheCluster)
    (rdsSecurityGroup cacheSecurityGroup : ec2.SecurityGroup)
    (certificate bucket : ConstructId) (t : Tree)
    (p1 p2 : ec2.SecurityGroupProps) (rules1 rules2 : list ec2.IngressRule) :
  tryFindChild t "Service" = None ->
  tryFindChild t (ec2.sg_node rdsSecurityGroup) = Some (R_SecurityGroup p1 rules1) ->
  tryFindChild t (ec2.sg_node cacheSecurityGroup) = Some (R_SecurityGroup p2 rules2) ->
  exists h t' sp sc rules1' rules2',
    createLoadBalancedEcsService cfg ecsCluster rdsCluster cacheCluster
      rdsSecurityGroup cacheSecurityGroup certificate bucket t = Ok (h, t')
    /\ ecsPatterns.svc_node h = "Service"
    /\ map fst t' = map fst t ++ ["Service"]
    /\ tryFindChild t' "Service"
       = Some (R_Service sp (Some {| ecs.path := CONTAINER_HEALTHCHECK_PATH cfg |})
                 (Some sc)
                 [ {| s3.access := s3.ReadWrite; s3.resource := bucket |} ])
    /\ ecsPatterns.cluster sp = ecsCluster
    /\ ecsPatterns.certificate sp = certificate
    /\ ecs.containerPort (ecsPatterns.taskImageOptions sp) = CONTAINER_PORT cfg
    /\ ecs.environment (ecsPatterns.taskImageOptions sp)
       = [ ("DB_HOST", rds.clusterEndpoint_hostname rdsCluster);
           ("DB_USER",
            match rds.secret rdsCluster with
            | Some s => SecretJson (rds.secret_of s) "username"
            | None => Undefined
            end);
           ("DB_PASSWORD",
            match rds.secret rdsCluster with
            | Some s => SecretJson (rds.secret_of s) "password"
            | None => Undefined
            end);
           ("DB_NAME", Lit "wordpress");
           ("CACHE_HOST", elasticache.attrRedisEndpointAddress cacheCluster) ]
    /\ sc = {| ecs.bounds := {| ecs.minCapacity := 1; ecs.maxCapacity := 3 |};
               ecs.policies :=
                 [ ("CpuScaling", ecs.CpuUtilization 50);
                   ("RequestScaling",
                    ecs.RequestCount 10000 {| elbv2.tg_owner := "Service" |}) ] |}
    /\ tryFindChild t' (ec2.sg_node rdsSecurityGroup) = Some (R_SecurityGroup p1 rules1')
    /\ In {| ec2.peer := ec2.SecurityGroupPeer "Service";
             ec2.connection := ec2.tcp 3306 |} rules1'
    /\ incl rules1 rules1'
    /\ (NoDup rules1 -> NoDup rules1')
    /\ tryFindChild t' (ec2.sg_node cacheSecurityGroup) = Some (R_SecurityGroup p2 rules2')
    /\ In {| ec2.peer := ec2.SecurityGroupPeer "Service";
             ec2.connection := ec2.tcp 6379 |} rules2'
    /\ incl rules2 rules2'
    /\ (NoDup rules2 -> NoDup rules2')
    /\ (ec2.sg_node rdsSecurityGroup <> ec2.sg_node cacheSecurityGroup ->
        rules1' = addDirectIngressRule rules1
                    {| ec2.peer := ec2.SecurityGroupPeer "Service";
                       ec2.connection := ec2.tcp 3306 |}
        /\ rules2' = addDirectIngressRule rules2
                       {| ec2.peer := ec2.SecurityGroupPeer "Service";
                          ec2.connection := ec2.tcp 6379 |})
    /\ (forall k, k <> "Service" -> k <> ec2.sg_node rdsSecurityGroup ->
                  k <> ec2.sg_node cacheSecurityGroup ->
                  tryFindChild t' k = tryFindChild t k).
Proof.
  destruct rdsSecurityGroup as [rid rtok], cacheSecurityGroup as [cid ctok].
  cbn [ec2.sg_node].
  intros Hfree Hrds Hcache.
  assert (Hr : String.eqb "Service" rid = false).
  { apply String.eqb_neq. intros E. rewrite <- E in Hrds. congruence. }
  assert (Hc : String.eqb "Service" cid = false).
  { apply String.eqb_neq. intros E. rewrite <- E in Hcache. congruence. }
  assert (Hr' : String.eqb rid "Service" = false) by now rewrite String.eqb_sym.
  assert (Hc' : String.eqb cid "Service" = false) by now rewrite String.eqb_sym.
  unfold createLoadBalancedEcsService, new_ApplicationLoadBalancedFargateService.
  unfold bind at 1. unfold bind at 1. unfold addChild at 1. rewrite Hfree.
  unfold ret at 1.
  cbn [ecsPatterns.targetGroup ecsPatterns.service ecs.connections_securityGroups
       nth_error ecsPatterns.taskDefinition_taskRole].
  match goal with
  | |- context [R_Service ?p None None []] => set (sp := p)
  end.
  unfold bind at 1. unfold configureHealthCheck. cbn [elbv2.tg_owner].
  erewrite modify_ok; [ | lookup; rewrite Hfree; reflexivity | reflexivity].
  unfold bind at 1. unfold addIngressRule at 1. cbn [ec2.sg_node].
  erewrite modify_ok;
    [ | lookup; rewrite Hr, Hrds; reflexivity | reflexivity].
  unfold bind at 1. unfold addIngressRule at 1. cbn [ec2.sg_node].
  assert (Hcache_now :
    exists rules2',
      tryFindChild
        (replaceChild
           (replaceChild (t ++ [("Service", R_Service sp None None [])]) "Service"
              (R_Service sp (Some {| ecs.path := CONTAINER_HEALTHCHECK_PATH cfg |})
                 None []))
           rid
           (R_SecurityGroup p1
              (addDirectIngressRule rules1
                 {| ec2.peer := ec2.SecurityGroupPeer "Service";
                    ec2.connection := ec2.tcp 3306 |}))) cid
      = Some (R_SecurityGroup p2 rules2')
      /\ incl rules2 rules2' /\ (NoDup rules2 -> NoDup rules2')
      /\ (String.eqb rid cid = true ->
          p2 = p1 /\ rules2' = addDirectIngressRule rules1
                       {| ec2.peer := ec2.SecurityGroupPeer "Service";
                          ec2.connection := ec2.tcp 3306 |})
      /\ (String.eqb rid cid = false -> rules2' = rules2)).
  { lookup. rewrite Hr, Hrds.
    destruct (String.eqb rid cid) eqn:Erc.
    - apply String.eqb_eq in Erc. subst cid.
      rewrite Hrds in Hcache. injection Hcache as <- <-.
      eexists. split; [reflexivity |].
      split; [apply addDirectIngressRule_incl |].
      split; [apply addDirectIngressRule_NoDup |].
      split; [intros _; split; reflexivity | discriminate].
    - rewrite Hc, Hcache.
      eexists. split; [reflexivity |].
      split; [apply incl_refl |].
      split; [trivial |].
      split; [discriminate | reflexivity]. }
  destruct Hcache_now as [rules2' [Hcache_now [Hincl2 [Hnd2 [Hsame Hdiff]]]]].
  erewrite modify_ok; [ | exact Hcache_now | reflexivity].
  unfold bind at 1. unfold autoScaleTaskCount. unfold bind at 1.
  cbn [ecs.fs_owner].
  erewrite modify_ok;
    [ | lookup; rewrite Hc', Hr', Hfree; reflexivity | reflexivity].
  unfold ret at 1.
  unfold bind at 1. unfold scaleOnCpuUtilization, addScalingPolicy.
  cbn [ecs.scaled_service].
  erewrite modify_ok;
    [ | lookup; rewrite Hc', Hr', Hfree; reflexivity | reflexivity].
  unfold bind at 1. unfold scaleOnRequestCount, addScalingPolicy.
  cbn [ecs.scaled_service].
  erewrite modify_ok;
    [ | lookup; rewrite Hc', Hr', Hfree; reflexivity | reflexivity].
  unfold bind at 1. unfold grantReadWrite. cbn [iam.role_owner].
  erewrite modify_ok;
    [ | lookup; rewrite Hc', Hr', Hfree; reflexivity | reflexivity].
  unfold ret.
  eexists. eexists. exists sp. eexists.
  exists (if String.eqb rid cid
          then addDirectIngressRule
                 (addDirectIngressRule rules1
                    {| ec2.peer := ec2.SecurityGroupPeer "Service";
                       ec2.connection := ec2.tcp 3306 |})
                 {| ec2.peer := ec2.SecurityGroupPeer "Service";
                    ec2.connection := ec2.tcp 6379 |}
          else addDirectIngressRule rules1
                 {| ec2.peer := ec2.SecurityGroupPeer "Service";
                    ec2.connection := ec2.tcp 3306 |}).
  exists (addDirectIngressRule rules2'
            {| ec2.peer := ec2.SecurityGroupPeer "Service";
               ec2.connection := ec2.tcp 6379 |}).
  split; [reflexivity |].
  split; [reflexivity |].
  split.
  { rewrite !map_fst_replaceChild, map_app. reflexivity. }
  split.
  { lookup. rewrite Hc', Hr', Hfree. reflexivity. }
  split; [reflexivity |].
  split; [reflexivity |].
  split; [reflexivity |].
  split.
  { subst sp. cbn. destruct (rds.secret rdsCluster); reflexivity. }
  split; [reflexivity |].
  split.
  { lookup. rewrite Hr, Hrds.
    rewrite (String.eqb_sym cid rid).
    destruct (String.eqb rid cid) eqn:Erc.
    - destruct (Hsame eq_refl) as [-> ->]. reflexivity.
    - reflexivity. }
  split.
  { destruct (String.eqb rid cid).
    - apply addDirectIngressRule_incl, addDirectIngressRule_In.
    - apply addDirectIngressRule_In. }
  split.
  { destruct (String.eqb rid cid).
    - eapply incl_tran; apply addDirectIngressRule_incl.
    - apply addDirectIngressRule_incl. }
  split.
  { intros Hnd. destruct (String.eqb rid cid).
    - now do 2 apply addDirectIngressRule_NoDup.
    - now apply addDirectIngressRule_NoDup. }
  split.
  { do 4 (rewrite tryFindChild_replaceChild, Hc; cbv iota).
    rewrite tryFindChild_replaceChild, String.eqb_refl.
    match goal with
    | |- match ?x with _ => _ end = _ =>
        replace x with (Some (R_SecurityGroup p2 rules2'))
          by (symmetry; exact Hcache_now)
    end.
    reflexivity. }
  split; [apply addDirectIngressRule_In |].
  split.
  { eapply incl_tran; [exact Hincl2 | apply addDirectIngressRule_incl]. }
  split.
  { intros Hnd. apply addDirectIngressRule_NoDup. now apply Hnd2. }
  split.
  { intros Hne. apply String.eqb_neq in Hne. rewrite Hne.
    split; [reflexivity | now rewrite (Hdiff Hne)]. }
  intros k Hk Hkr Hkc.
  lookup.
  rewrite (proj2 (String.eqb_neq "Service" k)) by congruence.
  rewrite (proj2 (String.eqb_neq cid k)) by congruence.
  rewrite (proj2 (String.eqb_neq rid k)) by congruence.
  destruct (tryFindChild t k); reflexivity.
Qed.

(** X3.  The service builder, run in any scope that holds the two security groups
    it is given and no construct named "Service": it succeeds; it registers
    "Service" after the constructs of the scope and nothing else; the
    service has the health check path of the constants, task-count scaling
    and read/write access to the bucket it was given; each group keeps the
    rules it had and admits the service on its port, 3306 and 6379, free of
    duplicates if it was before; every other construct is left as it was. *)
Theorem service_builder_in_any_scope (cfg : Config) (ecsCluster : ConstructId)
    (rdsCluster : rds.DatabaseCluster) (cacheCluster : elasticache.CfnCacheCluster)
    (rdsSecurityGroup cacheSecurityGroup : ec2.SecurityGroup)
    (certificate bucket : ConstructId) (t : Tree)
    (p1 p2 : ec2.SecurityGroupProps) (rules1 rules2 : list ec2.IngressRule)
    (Hfree : tryFindChild t "Service" = None)
    (Hrds : tryFindChild t (ec2.sg_node rdsSecurityGroup)
            = Some (R_SecurityGroup p1 rules1))
    (Hcache : tryFindChild t (ec2.sg_node cacheSecurityGroup)
              = Some (R_SecurityGroup p2 rules2)) :
  exists h t' sp sc rules1' rules2',
    createLoadBalancedEcsService cfg ecsCluster rdsCluster cacheCluster
      rdsSecurityGroup cacheSecurityGroup certificate bucket t = Ok (h, t')
    /\ map fst t' = map fst t ++ ["Service"]
    /\ tryFindChild t' "Service"
       = Some (R_Service sp (Some {| ecs.path := CONTAINER_HEALTHCHECK_PATH cfg |})
                 (Some sc)
                 [ {| s3.access := s3.ReadWrite; s3.resource := bucket |} ])
    /\ ecsPatterns.cluster sp = ecsCluster
    /\ ecsPatterns.certificate sp = certificate
    /\ ecs.containerPort (ecsPatterns.taskImageOptions sp) = CONTAINER_PORT cfg
    /\ tryFindChild t' (ec2.sg_node rdsSecurityGroup) = Some (R_SecurityGroup p1 rules1')
    /\ In {| ec2.peer := ec2.SecurityGroupPeer "Service";
             ec2.connection := ec2.tcp 3306 |} rules1'
    /\ incl rules1 rules1'
    /\ (NoDup rules1 -> NoDup rules1')
    /\ tryFindChild t' (ec2.sg_node cacheSecurityGroup) = Some (R_SecurityGroup p2 rules2')
    /\ In {| ec2.peer := ec2.SecurityGroupPeer "Service";
             ec2.connection := ec2.tcp 6379 |} rules2'
    /\ incl rules2 rules2'
    /\ (NoDup rules2 -> NoDup rules2')
    /\ (forall k, k <> "Service" -> k <> ec2.sg_node rdsSecurityGroup ->
                  k <> ec2.sg_node cacheSecurityGroup ->
                  tryFindChild t' k = tryFindChild t k).
Proof.
  destruct (service_builder_run cfg ecsCluster rdsCluster cacheCluster
              rdsSecurityGroup cacheSecurityGroup certificate bucket t
              p1 p2 rules1 rules2 Hfree Hrds Hcache)
    as (h & t' & sp & sc & rules1' & rules2' & Hrun & _ & Hids & Hsvc & Hcl & Hcert
        & Hport & _ & _ & Hr1 & Hin1 & Hincl1 & Hnd1 & Hr2 & Hin2 & Hincl2 & Hnd2
        & _ & Hframe).
  exists h, t', sp, sc, rules1', rules2'.
  repeat (split; [assumption |]). assumption.
Qed.

Lemma service_builder_in_any_scope_witness :
  exists h t' sp sc rules1' rules2',
    createLoadBalancedEcsService source_constants "Cluster"
      {| rds.db_node := "Db"; rds.clusterEndpoint_hostname := Attr "Db" "Endpoint.Address";
         rds.secret := None |}
      {| elasticache.cache_node := "Cache";
         elasticache.attrRedisEndpointAddress := Attr "Cache" "RedisEndpoint.Address" |}
      {| ec2.sg_node := "Shared"; ec2.securityGroupId := Attr "Shared" "GroupId" |}
      {| ec2.sg_node := "Shared"; ec2.securityGroupId := Attr "Shared" "GroupId" |}
      "Certificate" "Bucket"
      [ ("Shared",
         R_SecurityGroup {| ec2.vpc := "Vpc"; ec2.description := "shared" |}
           [ {| ec2.peer := ec2.SecurityGroupPeer "Service";
                ec2.connection := ec2.tcp 3306 |} ]) ]
    = Ok (h, t')
    /\ map fst t' = ["Shared"] ++ ["Service"]
    /\ tryFindChild t' "Service"
       = Some (R_Service sp
                 (Some {| ecs.path := CONTAINER_HEALTHCHECK_PATH source_constants |})
                 (Some sc)
                 [ {| s3.access := s3.ReadWrite; s3.resource := "Bucket" |} ])
    /\ ecsPatterns.cluster sp = "Cluster"
    /\ ecsPatterns.certificate sp = "Certificate"
    /\ ecs.containerPort (ecsPatterns.taskImageOptions sp)
       = CONTAINER_PORT source_constants
    /\ tryFindChild t' "Shared"
       = Some (R_SecurityGroup {| ec2.vpc := "Vpc"; ec2.description := "shared" |} rules1')
    /\ In {| ec2.peer := ec2.SecurityGroupPeer "Service";
             ec2.connection := ec2.tcp 3306 |} rules1'
    /\ incl [ {| ec2.peer := ec2.SecurityGroupPeer "Service";
                 ec2.connection := ec2.tcp 3306 |} ] rules1'
    /\ (NoDup [ {| ec2.peer := ec2.SecurityGroupPeer "Service";
                   ec2.connection := ec2.tcp 3306 |} ] -> NoDup rules1')
    /\ tryFindChild t' "Shared"
       = Some (R_SecurityGroup {| ec2.vpc := "Vpc"; ec2.description := "shared" |} rules2')
    /\ In {| ec2.peer := ec2.SecurityGroupPeer "Service";
             ec2.connection := ec2.tcp 6379 |} rules2'
    /\ incl [ {| ec2.peer := ec2.SecurityGroupPeer "Service";
                 ec2.connection := ec2.tcp 3306 |} ] rules2'
    /\ (NoDup [ {| ec2.peer := ec2.SecurityGroupPeer "Service";
                   ec2.connection := ec2.tcp 3306 |} ] -> NoDup rules2')
    /\ (forall k, k <> "Service" -> k <> "Shared" -> k <> "Shared" ->
                  tryFindChild t' k
                  = tryFindChild
                      [ ("Shared",
                         R_SecurityGroup {| ec2.vpc := "Vpc"; ec2.description := "shared" |}
                           [ {| ec2.peer := ec2.SecurityGroupPeer "Service";
                                ec2.connection := ec2.tcp 3306 |} ]) ] k).
Proof.
  apply (service_builder_in_any_scope source_constants "Cluster"
           {| rds.db_node := "Db";
              rds.clusterEndpoint_hostname := Attr "Db" "Endpoint.Address";
              rds.secret := None |}
           {| elasticache.cache_node := "Cache";
              elasticache.attrRedisEndpointAddress := Attr "Cache" "RedisEndpoint.Address" |}
           {| ec2.sg_node := "Shared"; ec2.securityGroupId := Attr "Shared" "GroupId" |}
           {| ec2.sg_node := "Shared"; ec2.securityGroupId := Attr "Shared" "GroupId" |}
           "Certificate" "Bucket"
           [ ("Shared",
              R_SecurityGroup {| ec2.vpc := "Vpc"; ec2.description := "shared" |}
                [ {| ec2.peer := ec2.SecurityGroupPeer "Service";
                     ec2.connection := ec2.tcp 3306 |} ]) ]);
    reflexivity.
Defined.

(** X4.  Whatever cluster handle the service builder is given, the bindings
    DB_USER and DB_PASSWORD are never literal strings: with a secret they
    are the dynamic references to its "username" and "password" fields,
    without one they are undefined, and the build does not fail on that.
    DB_HOST and CACHE_HOST carry the endpoint tokens of the two handles. *)
Theorem service_builder_credentials (cfg : Config) (ecsCluster : ConstructId)
    (rdsCluster : rds.DatabaseCluster) (cacheCluster : elasticache.CfnCacheCluster)
    (rdsSecurityGroup cacheSecurityGroup : ec2.SecurityGroup)
    (certificate bucket : ConstructId) (t : Tree)
    (p1 p2 : ec2.SecurityGroupProps) (rules1 rules2 : list ec2.IngressRule)
    (Hfree : tryFindChild t "Service" = None)
    (Hrds : tryFindChild t (ec2.sg_node rdsSecurityGroup)
            = Some (R_SecurityGroup p1 rules1))
    (Hcache : tryFindChild t (ec2.sg_node cacheSecurityGroup)
              = Some (R_SecurityGroup p2 rules2)) :
  exists h t' sp hc sc g,
    createLoadBalancedEcsService cfg ecsCluster rdsCluster cacheCluster
      rdsSecurityGroup cacheSecurityGroup certificate bucket t = Ok (h, t')
    /\ tryFindChild t' "Service" = Some (R_Service sp hc sc g)
    /\ env_lookup (ecs.environment (ecsPatterns.taskImageOptions sp)) "DB_USER"
       = Some match rds.secret rdsCluster with
              | Some s => SecretJson (rds.secret_of s) "username"
              | None => Undefined
              end
    /\ env_lookup (ecs.environment (ecsPatterns.taskImageOptions sp)) "DB_PASSWORD"
       = Some match rds.secret rdsCluster with
              | Some s => SecretJson (rds.secret_of s) "password"
              | None => Undefined
              end
    /\ env_lookup (ecs.environment (ecsPatterns.taskImageOptions sp)) "DB_HOST"
       = Some (rds.clusterEndpoint_hostname rdsCluster)
    /\ env_lookup (ecs.environment (ecsPatterns.taskImageOptions sp)) "CACHE_HOST"
       = Some (elasticache.attrRedisEndpointAddress cacheCluster)
    /\ (forall key v,
          In (key, v) (ecs.environment (ecsPatterns.taskImageOptions sp)) ->
          is_literal v = true -> key <> "DB_USER" /\ key <> "DB_PASSWORD").
Proof.
  destruct (service_builder_run cfg ecsCluster rdsCluster cacheCluster
              rdsSecurityGroup cacheSecurityGroup certificate bucket t
              p1 p2 rules1 rules2 Hfree Hrds Hcache)
    as (h & t' & sp & sc & rules1' & rules2' & Hrun & _ & _ & Hsvc & _ & _
        & _ & Henv & _).
  exists h, t', sp. do 3 eexists.
  split; [exact Hrun |].
  split; [exact Hsvc |].
  rewrite Henv.
  do 4 (split; [reflexivity |]).
  intros key v Hin Hlit.
  simpl in Hin.
  destruct Hin as [Hin | [Hin | [Hin | [Hin | [Hin | []]]]]];
    injection Hin as <- <-;
    try (split; discriminate);
    destruct (rds.secret rdsCluster); discriminate.
Qed.

Lemma service_builder_credentials_witness :
  exists h t' sp hc sc g,
    createLoadBalancedEcsService source_constants "Cluster"
      {| rds.db_node := "Db"; rds.clusterEndpoint_hostname := Attr "Db" "Endpoint.Address";
         rds.secret := None |}
      {| elasticache.cache_node := "Cache";
         elasticache.attrRedisEndpointAddress := Attr "Cache" "RedisEndpoint.Address" |}
      {| ec2.sg_node := "A"; ec2.securityGroupId := Attr "A" "GroupId" |}
      {| ec2.sg_node := "B"; ec2.securityGroupId := Attr "B" "GroupId" |}
      "Certificate" "Bucket"
      [ ("A", R_SecurityGroup {| ec2.vpc := "Vpc"; ec2.description := "a" |} []);
        ("B", R_SecurityGroup {| ec2.vpc := "Vpc"; ec2.description := "b" |} []) ]
    = Ok (h, t')
    /\ tryFindChild t' "Service" = Some (R_Service sp hc sc g)
    /\ env_lookup (ecs.environment (ecsPatterns.taskImageOptions sp)) "DB_USER"
       = Some Undefined
    /\ env_lookup (ecs.environment (ecsPatterns.taskImageOptions sp)) "DB_PASSWORD"
       = Some Undefined
    /\ env_lookup (ecs.environment (ecsPatterns.taskImageOptions sp)) "DB_HOST"
       = Some (Attr "Db" "Endpoint.Address")
    /\ env_lookup (ecs.environment (ecsPatterns.taskImageOptions sp)) "CACHE_HOST"
       = Some (Attr "Cache" "RedisEndpoint.Address")
    /\ (forall key v,
          In (key, v) (ecs.environment (ecsPatterns.taskImageOptions sp)) ->
          is_literal v = true -> key <> "DB_USER" /\ key <> "DB_PASSWORD").
Proof.
  apply (service_builder_credentials source_constants "Cluster"
           {| rds.db_node := "Db";
              rds.clusterEndpoint_hostname := Attr "Db" "Endpoint.Address";
              rds.secret := None |}
           {| elasticache.cache_node := "Cache";
              elasticache.attrRedisEndpointAddress := Attr "Cache" "RedisEndpoint.Address" |}
           {| ec2.sg_node := "A"; ec2.securityGroupId := Attr "A" "GroupId" |}
           {| ec2.sg_node := "B"; ec2.securityGroupId := Attr "B" "GroupId" |}
           "Certificate" "Bucket"
           [ ("A", R_SecurityGroup {| ec2.vpc := "Vpc"; ec2.description := "a" |} []);
             ("B", R_SecurityGroup {| ec2.vpc := "Vpc"; ec2.description := "b" |} []) ]
           {| ec2.vpc := "Vpc"; ec2.description := "a" |}
           {| ec2.vpc := "Vpc"; ec2.description := "b" |} [] []);
    reflexivity.
Defined.

(** X5.  The service builder cannot run twice in one scope: after a run that
    succeeded, a second run, with whatever arguments, throws on the
    identifier "Service" before it changes anything. *)
Theorem service_builder_twice_fails (cfg : Config)
    (ecsCluster ecsCluster' : ConstructId)
    (rdsCluster rdsCluster' : rds.DatabaseCluster)
    (cacheCluster cacheCluster' : elasticache.CfnCacheCluster)
    (rdsSecurityGroup cacheSecurityGroup rdsSecurityGroup' cacheSecurityGroup'
       : ec2.SecurityGroup)
    (certificate bucket certificate' bucket' : ConstructId) (t : Tree)
    (p1 p2 : ec2.SecurityGroupProps) (rules1 rules2 : list ec2.IngressRule)
    (Hfree : tryFindChild t "Service" = None)
    (Hrds : tryFindChild t (ec2.sg_node rdsSecurityGroup)
            = Some (R_SecurityGroup p1 rules1))
    (Hcache : tryFindChild t (ec2.sg_node cacheSecurityGroup)
              = Some (R_SecurityGroup p2 rules2)) :
  (createLoadBalancedEcsService cfg ecsCluster rdsCluster cacheCluster
     rdsSecurityGroup cacheSecurityGroup certificate bucket ;;;
   createLoadBalancedEcsService cfg ecsCluster' rdsCluster' cacheCluster'
     rdsSecurityGroup' cacheSecurityGroup' certificate' bucket') t
  = Err (DuplicateConstruct "Service").
Proof.
  destruct (service_builder_run cfg ecsCluster rdsCluster cacheCluster
              rdsSecurityGroup cacheSecurityGroup certificate bucket t
              p1 p2 rules1 rules2 Hfree Hrds Hcache)
    as (h & t' & sp & sc & rules1' & rules2' & Hrun & _ & _ & Hsvc & _).
  unfold bind at 1. rewrite Hrun.
  unfold createLoadBalancedEcsService, new_ApplicationLoadBalancedFargateService.
  unfold bind at 1. unfold bind at 1. unfold addChild at 1.
  rewrite Hsvc. reflexivity.
Qed.

Lemma service_builder_twice_fails_witness :
  (createLoadBalancedEcsService source_constants "Cluster"
     {| rds.db_node := "Db"; rds.clusterEndpoint_hostname := Attr "Db" "Endpoint.Address";
        rds.secret := None |}
     {| elasticache.cache_node := "Cache";
        elasticache.attrRedisEndpointAddress := Attr "Cache" "RedisEndpoint.Address" |}
     {| ec2.sg_node := "A"; ec2.securityGroupId := Attr "A" "GroupId" |}
     {| ec2.sg_node := "B"; ec2.securityGroupId := Attr "B" "GroupId" |}
     "Certificate" "Bucket" ;;;
   createLoadBalancedEcsService source_constants "Cluster"
     {| rds.db_node := "Db"; rds.clusterEndpoint_hostname := Attr "Db" "Endpoint.Address";
        rds.secret := None |}
     {| elasticache.cache_node := "Cache";
        elasticache.attrRedisEndpointAddress := Attr "Cache" "RedisEndpoint.Address" |}
     {| ec2.sg_node := "A"; ec2.securityGroupId := Attr "A" "GroupId" |}
     {| ec2.sg_node := "B"; ec2.securityGroupId := Attr "B" "GroupId" |}
     "Certificate" "Bucket")
    [ ("A", R_SecurityGroup {| ec2.vpc := "Vpc"; ec2.description := "a" |} []);
      ("B", R_SecurityGroup {| ec2.vpc := "Vpc"; ec2.description := "b" |} []) ]
  = Err (DuplicateConstruct "Service").
Proof.
  apply (service_builder_twice_fails source_constants "Cluster" "Cluster"
           _ _ _ _ _ _ _ _ "Certificate" "Bucket" "Certificate" "Bucket" _
           {| ec2.vpc := "Vpc"; ec2.description := "a" |}
           {| ec2.vpc := "Vpc"; ec2.description := "b" |} [] []);
    reflexivity.
Defined.

(** ** The data tier builders followed by the service builder *)

Lemma addChild_ok (id : ConstructId) (r : Resource) (t : Tree) :
  tryFindChild t id = None -> addChild id r t = Ok (tt, t ++ [(id, r)]).
Proof.
  intros H. unfold addChild. now rewrite H.
Qed.

(** X6.  In any scope that has none of their five identifiers, the two data tier
    builders followed by the service builder on the handles they return
    succeed.  The five constructs are registered in that order after those
    of the scope; the database is attached to the group built with it, which
    admits the service on port 3306 and nothing else; the cache cluster is
    attached to the group built with it, which admits the service on port
    6379 and nothing else; the service reads its credentials from the secret
    of that database; the constructs of the scope are left as they were. *)
Theorem data_tiers_then_service (cfg : Config)
    (vpc ecsCluster certificate bucket : ConstructId) (t : Tree)
    (Hrsg : tryFindChild t "RdsSecurityGroup" = None)
    (Hdb : tryFindChild t "Database" = None)
    (Hcsg : tryFindChild t "CacheSecurityGroup" = None)
    (Hcc : tryFindChild t "CacheCluster" = None)
    (Hsvc : tryFindChild t "Service" = None) :
  exists h t' rp dp cp kp sp hc sc g,
    ('(rdsSecurityGroup, rdsCluster) <- createRdsCluster vpc ;;
     '(cacheSecurityGroup, cacheCluster) <- createCacheCluster vpc ;;
     createLoadBalancedEcsService cfg ecsCluster rdsCluster cacheCluster
       rdsSecurityGroup cacheSecurityGroup certificate bucket) t
    = Ok (h, t')
    /\ map fst t' =
       map fst t ++ [ "RdsSecurityGroup"; "Database"; "CacheSecurityGroup";
                      "CacheCluster"; "Service" ]
    /\ tryFindChild t' "RdsSecurityGroup"
       = Some (R_SecurityGroup rp
                 [ {| ec2.peer := ec2.SecurityGroupPeer "Service";
                      ec2.connection := ec2.tcp 3306 |} ])
    /\ ec2.vpc rp = vpc
    /\ tryFindChild t' "Database" = Some (R_DatabaseCluster dp)
    /\ rds.securityGroups dp = [ "RdsSecurityGroup" ]
    /\ rds.vpc dp = vpc
    /\ tryFindChild t' "CacheSecurityGroup"
       = Some (R_SecurityGroup cp
                 [ {| ec2.peer := ec2.SecurityGroupPeer "Service";
                      ec2.connection := ec2.tcp 6379 |} ])
    /\ ec2.vpc cp = vpc
    /\ tryFindChild t' "CacheCluster" = Some (R_CfnCacheCluster kp)
    /\ elasticache.vpcSecurityGroupIds kp = [ Attr "CacheSecurityGroup" "GroupId" ]
    /\ tryFindChild t' "Service" = Some (R_Service sp hc sc g)
    /\ ecs.environment (ecsPatterns.taskImageOptions sp)
       = [ ("DB_HOST", Attr "Database" "Endpoint.Address");
           ("DB_USER", SecretJson "Database" "username");
           ("DB_PASSWORD", SecretJson "Database" "password");
           ("DB_NAME", Lit "wordpress");
           ("CACHE_HOST", Attr "CacheCluster" "RedisEndpoint.Address") ]
    /\ (forall k r, tryFindChild t k = Some r -> tryFindChild t' k = Some r).
Proof.
  unfold createRdsCluster, createCacheCluster, new_SecurityGroup,
    new_DatabaseCluster, new_CfnCacheCluster.
  unfold bind at 1. unfold bind at 1. unfold bind at 1.
  rewrite (addChild_ok _ _ _ Hrsg). unfold ret at 1.
  unfold bind at 1. unfold bind at 1.
  rewrite addChild_ok by (rewrite tryFindChild_app, Hdb; reflexivity).
  unfold ret at 1. unfold ret at 1.
  unfold bind at 1. unfold bind at 1. unfold bind at 1.
  rewrite addChild_ok by (rewrite !tryFindChild_app, Hcsg; reflexivity).
  unfold ret at 1.
  unfold bind at 1. unfold bind at 1.
  rewrite addChild_ok by (rewrite !tryFindChild_app, Hcc; reflexivity).
  unfold ret at 1. unfold ret at 1.
  cbn [ec2.sg_node ec2.securityGroupId].
  match goal with
  | |- context [createLoadBalancedEcsService _ _ ?db ?cc ?rsg ?csg _ _ ?T] =>
      destruct (service_builder_run cfg ecsCluster db cc rsg csg certificate bucket T
                  {| ec2.vpc := vpc;
                     ec2.description := "Security group for RDS cluster" |}
                  {| ec2.vpc := vpc;
                     ec2.description := "Security group for Redis cache cluster" |}
                  [] [])
        as (h & t' & sp & sc & rules1' & rules2' & Hrun & _ & Hids & Hs & _ & _
            & _ & Henv & _ & Hr1 & _ & _ & _ & Hr2 & _ & _ & _ & Hexact & Hframe)
  end.
  { rewrite !tryFindChild_app, Hsvc. reflexivity. }
  { cbn [ec2.sg_node]. rewrite !tryFindChild_app, Hrsg. reflexivity. }
  { cbn [ec2.sg_node]. rewrite !tryFindChild_app, Hcsg. reflexivity. }
  cbn [ec2.sg_node] in *.
  destruct Hexact as [-> ->]; [discriminate |].
  exists h, t'. do 4 eexists. exists sp. do 3 eexists.
  split; [exact Hrun |].
  split.
  { rewrite Hids, !map_app, <- !app_assoc. reflexivity. }
  split; [exact Hr1 |].
  split; [reflexivity |].
  split.
  { rewrite Hframe by discriminate. rewrite !tryFindChild_app, Hdb. reflexivity. }
  split; [reflexivity |].
  split; [reflexivity |].
  split; [exact Hr2 |].
  split; [reflexivity |].
  split.
  { rewrite Hframe by discriminate. rewrite !tryFindChild_app, Hcc. reflexivity. }
  split; [reflexivity |].
  split; [exact Hs |].
  split; [exact Henv |].
  intros k r Hk.
  rewrite Hframe.
  - rewrite !tryFindChild_app, Hk. reflexivity.
  - intros ->. congruence.
  - intros ->. congruence.
  - intros ->. congruence.
Qed.

Lemma data_tiers_then_service_witness :
  exists h t' rp dp cp kp sp hc sc g,
    ('(rdsSecurityGroup, rdsCluster) <- createRdsCluster "Vpc" ;;
     '(cacheSecurityGroup, cacheCluster) <- createCacheCluster "Vpc" ;;
     createLoadBalancedEcsService source_constants "Cluster" rdsCluster cacheCluster
       rdsSecurityGroup cacheSecurityGroup "Certificate" "Bucket") [("Bucket", R_Bucket)]
    = Ok (h, t')
    /\ map fst t' =
       map fst [("Bucket", R_Bucket)]
         ++ [ "RdsSecurityGroup"; "Database"; "CacheSecurityGroup";
              "CacheCluster"; "Service" ]
    /\ tryFindChild t' "RdsSecurityGroup"
       = Some (R_SecurityGroup rp
                 [ {| ec2.peer := ec2.SecurityGroupPeer "Service";
                      ec2.connection := ec2.tcp 3306 |} ])
    /\ ec2.vpc rp = "Vpc"
    /\ tryFindChild t' "Database" = Some (R_DatabaseCluster dp)
    /\ rds.securityGroups dp = [ "RdsSecurityGroup" ]
    /\ rds.vpc dp = "Vpc"
    /\ tryFindChild t' "CacheSecurityGroup"
       = Some (R_SecurityGroup cp
                 [ {| ec2.peer := ec2.SecurityGroupPeer "Service";
                      ec2.connection := ec2.tcp 6379 |} ])
    /\ ec2.vpc cp = "Vpc"
    /\ tryFindChild t' "CacheCluster" = Some (R_CfnCacheCluster kp)
    /\ elasticache.vpcSecurityGroupIds kp = [ Attr "CacheSecurityGroup" "GroupId" ]
    /\ tryFindChild t' "Service" = Some (R_Service sp hc sc g)
    /\ ecs.environment (ecsPatterns.taskImageOptions sp)
       = [ ("DB_HOST", Attr "Database" "Endpoint.Address");
           ("DB_USER", SecretJson "Database" "username");
           ("DB_PASSWORD", SecretJson "Database" "password");
           ("DB_NAME", Lit "wordpress");
           ("CACHE_HOST", Attr "CacheCluster" "RedisEndpoint.Address") ]
    /\ (forall k r, tryFindChild [("Bucket", R_Bucket)] k = Some r ->
                    tryFindChild t' k = Some r).
Proof.
  apply (data_tiers_then_service source_constants "Vpc" "Cluster" "Certificate"
           "Bucket" [("Bucket", R_Bucket)]); reflexivity.
Defined.

(** ** How the constants reach the graph *)

Lemma lookup_differs (P : ConstructId -> Prop) (g1 g2 : Tree) :
  Forall2 (fun n1 n2 => fst n1 = fst n2 /\ (snd n1 <> snd n2 -> P (fst n1))) g1 g2 ->
  forall k, tryFindChild g1 k <> tryFindChild g2 k -> P k.
Proof.
  induction 1 as [| [i1 r1] [i2 r2] g1 g2 [Hid Hexp] _ IH]; intros k Hk.
  - now contradiction Hk.
  - cbn [fst snd] in Hid, Hexp. subst i2.
    cbn [tryFindChild] in Hk.
    destruct (String.eqb i1 k) eqn:E.
    + apply String.eqb_eq in E. subst k.
      apply Hexp. intros ->. now apply Hk.
    + now apply IH.
Qed.

(** X7.  Any two builds that produce a graph register the same identifiers
    in the same order, and a construct differs between them only where a
    constant it is built from differs: the zone, the certificate validated
    through it and the record created in it by the zone identifier or name,
    the distribution by the zone name, the service by the container port or
    the health check path. *)
Theorem constants_reach_only_their_constructs (cfg1 cfg2 : Config) (g1 g2 : Tree)
    (Hbuild1 : build cfg1 = Ok g1) (Hbuild2 : build cfg2 = Ok g2) :
  map fst g1 = map fst g2
  /\ forall k,
       tryFindChild g1 k <> tryFindChild g2 k ->
       ((k = "Zone" \/ k = "Certificate" \/ k = "ARecord")
        /\ (HOSTED_ZONE_ID cfg1 <> HOSTED_ZONE_ID cfg2
            \/ ZONE_NAME cfg1 <> ZONE_NAME cfg2))
       \/ (k = "Distribution" /\ ZONE_NAME cfg1 <> ZONE_NAME cfg2)
       \/ (k = "Service"
           /\ (CONTAINER_PORT cfg1 <> CONTAINER_PORT cfg2
               \/ CONTAINER_HEALTHCHECK_PATH cfg1
                  <> CONTAINER_HEALTHCHECK_PATH cfg2)).
Proof.
  destruct cfg1 as [zid1 zn1 port1 hc1], cfg2 as [zid2 zn2 port2 hc2].
  run_build_in Hbuild1. run_build_in Hbuild2.
  split; [reflexivity |].
  cbn [HOSTED_ZONE_ID ZONE_NAME CONTAINER_PORT CONTAINER_HEALTHCHECK_PATH].
  apply lookup_differs.
  repeat (apply Forall2_cons;
          [ split; [reflexivity | cbn [fst snd]; intros Hne] | ]);
    [ .. | apply Forall2_nil ];
    first
      [ exfalso; apply Hne; reflexivity
      | left; split; [solve [auto] |];
        destruct (string_dec zid1 zid2) as [-> | ?];
        [ right; intros ->; apply Hne; reflexivity | left; assumption ]
      | right; left; split; [reflexivity |];
        intros ->; apply Hne; reflexivity
      | right; right; split; [reflexivity |];
        destruct (Z.eq_dec port1 port2) as [-> | ?];
        [ right; intros ->; apply Hne; reflexivity | left; assumption ] ].
Qed.

Lemma constants_reach_only_their_constructs_witness :
  exists g1 g2,
    build source_constants = Ok g1 /\ build scenario_A = Ok g2
    /\ map fst g1 = map fst g2
    /\ forall k,
         tryFindChild g1 k <> tryFindChild g2 k ->
         ((k = "Zone" \/ k = "Certificate" \/ k = "ARecord")
          /\ (HOSTED_ZONE_ID source_constants <> HOSTED_ZONE_ID scenario_A
              \/ ZONE_NAME source_constants <> ZONE_NAME scenario_A))
         \/ (k = "Distribution" /\ ZONE_NAME source_constants <> ZONE_NAME scenario_A)
         \/ (k = "Service"
             /\ (CONTAINER_PORT source_constants <> CONTAINER_PORT scenario_A
                 \/ CONTAINER_HEALTHCHECK_PATH source_constants
                    <> CONTAINER_HEALTHCHECK_PATH scenario_A)).
Proof.
  do 2 eexists.
  split; [vm_compute; reflexivity |].
  split; [vm_compute; reflexivity |].
  apply (constants_reach_only_their_constructs source_constants scenario_A);
    vm_compute; reflexivity.
Defined.

(** ** Zone, certificate, distribution and record *)

(** X8.  In every graph the build pass produces: the imported zone carries the
    identifier and name of the constants; the certificate is issued for the
    zone name and its wildcard, two different names, and validated through
    that zone; the distribution is bound to the zone name alone, which the
    certificate covers, and uses that certificate; the alias record is
    created in the same zone and points at the distribution, whose domain
    name and CloudFront zone, looked up in the mapping registered with the
    record, make up the alias. *)
Theorem zone_certificate_distribution_record (cfg : Config) (g : Tree)
    (Hbuild : build cfg = Ok g) :
  let zone :=
    {| route53.zone_node := "Zone";
       route53.zone_attrs := {| route53.hostedZoneId := HOSTED_ZONE_ID cfg;
                                route53.zoneName := ZONE_NAME cfg |} |} in
  exists cp dp ap m,
    tryFindChild g "Zone" = Some (R_HostedZone (route53.zone_attrs zone))
    /\ tryFindChild g "Certificate" = Some (R_Certificate cp)
    /\ certificate_domains cp = [ ZONE_NAME cfg; ("*." ++ ZONE_NAME cfg)%string ]
    /\ NoDup (certificate_domains cp)
    /\ acm.validation cp = acm.fromDns zone
    /\ tryFindChild g "Distribution" = Some (R_Distribution dp)
    /\ cloudfront.domainNames dp = [ ZONE_NAME cfg ]
    /\ incl (cloudfront.domainNames dp) (certificate_domains cp)
    /\ cloudfront.certificate dp = Some "Certificate"
    /\ tryFindChild g "ARecord" = Some (R_ARecord ap)
    /\ route53.zone ap = zone
    /\ route53.target ap = route53.fromAlias_CloudFrontTarget "Distribution"
    /\ aliasTarget ap =
       [ ("aliasTarget.hostedZoneId",
          FindInMap "AWSCloudFrontPartitionHostedZoneIdMap" "zoneId");
         ("aliasTarget.dnsName", Attr "Distribution" "DomainName") ]
    /\ tryFindChild g "AWSCloudFrontPartitionHostedZoneIdMap" = Some (R_CfnMapping m).
Proof.
  destruct cfg as [zid zn port hc].
  run_build_in Hbuild.
  cbv zeta.
  do 4 eexists.
  do 3 (split; [reflexivity |]).
  split.
  { unfold certificate_domains; cbn.
    constructor; [| repeat constructor; intros []].
    intros [H | []]. exact (wildcard_differs zn H). }
  do 3 (split; [reflexivity |]).
  split.
  { intros d [<- | []]. now left. }
  repeat (split; [reflexivity |]). reflexivity.
Qed.

Lemma zone_certificate_distribution_record_witness :
  exists g cp dp ap,
    build scenario_A = Ok g
    /\ tryFindChild g "Certificate" = Some (R_Certificate cp)
    /\ certificate_domains cp = [ "example.com"; "*.example.com" ]
    /\ tryFindChild g "Distribution" = Some (R_Distribution dp)
    /\ cloudfront.domainNames dp = [ "example.com" ]
    /\ tryFindChild g "ARecord" = Some (R_ARecord ap)
    /\ route53.zone ap
       = {| route53.zone_node := "Zone";
            route53.zone_attrs := {| route53.hostedZoneId := "xxx";
                                     route53.zoneName := "example.com" |} |}.
Proof.
  eexists.
  destruct (zone_certificate_distribution_record scenario_A _
              ltac:(vm_compute; reflexivity))
    as (cp & dp & ap & m & _ & Hc & Hcd & _ & _ & Hd & Hdn & _ & _ & Ha & Hz & _).
  exists cp, dp, ap.
  split; [vm_compute; reflexivity |].
  repeat (split; [assumption |]). assumption.
Defined.

(** ** The network *)

(** X9.  The graph has one network, with one NAT gateway over at most two
    availability zones and a public and a private-with-egress subnet tier of
    mask 24; the constructs that are placed in a network, the two security
    groups, the database cluster and the compute cluster, are all placed in
    it. *)
Theorem one_network_for_all (cfg : Config) :
  exists g vp,
    build cfg = Ok g
    /\ count_kind is_vpc g = 1%nat
    /\ tryFindChild g "Vpc" = Some (R_Vpc vp)
    /\ ec2.maxAzs vp = 2
    /\ ec2.natGateways vp = 1
    /\ map (fun s => (ec2.subnetType s, ec2.cidrMask s)) (ec2.subnetConfiguration vp)
       = [ (ec2.PUBLIC, 24); (ec2.PRIVATE_WITH_EGRESS, 24) ]
    /\ (forall id r v, In (id, r) g -> vpc_of r = Some v -> v = "Vpc")
    /\ map fst (filter (fun c => match vpc_of (snd c) with Some _ => true | None => false end) g)
       = [ "RdsSecurityGroup"; "Database"; "CacheSecurityGroup"; "Cluster" ].
Proof.
  destruct cfg as [zid zn port hc].
  run_build.
  do 2 eexists.
  do 6 (split; [reflexivity |]).
  split; [| reflexivity].
  intros id r v Hin Hv.
  simpl in Hin.
  repeat (destruct Hin as [Hin | Hin];
          [ injection Hin as <- <-; simpl in Hv | ]);
    try contradiction; try discriminate;
    now injection Hv as <-.
Qed.

(** ** The references of the graph *)

Lemma refers_to_pairs (g : Tree) (a b : ConstructId) :
  refers_to g a b <-> In (a, b) (reference_pairs g).
Proof.
  unfold refers_to, reference_pairs. rewrite in_flat_map. split.
  - intros [r [Hin Hb]]. exists (a, r). split; [exact Hin |].
    apply in_map_iff. exists b. split; [reflexivity | exact Hb].
  - intros [[i r] [Hin Hmap]]. apply in_map_iff in Hmap as [d [Heq Hd]].
    cbn [fst snd] in Heq, Hd. injection Heq as -> ->.
    exists r. split; assumption.
Qed.

(** X13.  The complete wiring of every graph the build pass produces: one
    construct refers to another exactly in the listed cases, which count the
    references it was built from, the ingress rules back-wired into the two
    security groups, the network the service is placed in and the mapping
    the record looks its zone up in.  In particular only the service refers
    to the database, the cache cluster and the bucket, only the distribution
    refers to the firewall policy, only the distribution and the two security
    groups refer to the service, and nothing refers to the record. *)
Theorem references_of_the_graph (cfg : Config) (g : Tree)
    (Hbuild : build cfg = Ok g) :
  (forall a b,
      refers_to g a b <->
      In (a, b)
        [ ("RdsSecurityGroup", "Vpc"); ("RdsSecurityGroup", "Service");
          ("Database", "Vpc"); ("Database", "RdsSecurityGroup");
          ("CacheSecurityGroup", "Vpc"); ("CacheSecurityGroup", "Service");
          ("CacheCluster", "CacheSecurityGroup"); ("Cluster", "Vpc");
          ("Certificate", "Zone");
          ("Service", "Cluster"); ("Service", "Certificate");
          ("Service", "Database"); ("Service", "CacheCluster");
          ("Service", "Bucket"); ("Service", "Vpc");
          ("Distribution", "Service"); ("Distribution", "Certificate");
          ("Distribution", "WebAcl");
          ("ARecord", "Distribution"); ("ARecord", "Zone");
          ("ARecord", "AWSCloudFrontPartitionHostedZoneIdMap") ])
  /\ (forall a b, refers_to g a b ->
        (b = "Database" \/ b = "CacheCluster" \/ b = "Bucket" -> a = "Service")
        /\ (b = "WebAcl" -> a = "Distribution")
        /\ (b = "Service" ->
            a = "Distribution" \/ a = "RdsSecurityGroup" \/ a = "CacheSecurityGroup")
        /\ b <> "ARecord").
Proof.
  destruct cfg as [zid zn port hc].
  run_build_in Hbuild.
  split.
  - intros a b. rewrite refers_to_pairs.
    match goal with
    | |- In _ (reference_pairs ?g) <-> _ =>
        let r := eval vm_compute in (reference_pairs g) in
        change (reference_pairs g) with r
    end.
    split; intros Hin;
      repeat (destruct Hin as [Hin | Hin];
              [ injection Hin as <- <-; simpl; tauto | ]);
      destruct Hin.
  - intros a b Href. apply refers_to_pairs in Href.
    vm_compute in Href.
    repeat (destruct Href as [Href | Href];
            [ injection Href as <- <-;
              (split; [| split; [| split]]);
              [ intros [H | [H | H]]; first [reflexivity | discriminate H]
              | intros H; first [reflexivity | discriminate H]
              | intros H; first [ discriminate H | tauto ]
              | discriminate ] | ]).
    destruct Href.
Qed.

Lemma references_of_the_graph_witness :
  exists g,
    build source_constants = Ok g
    /\ refers_to g "RdsSecurityGroup" "Service"
    /\ refers_to g "Service" "Vpc"
    /\ ~ refers_to g "Distribution" "Bucket".
Proof.
  eexists. split; [vm_compute; reflexivity |].
  destruct (references_of_the_graph source_constants _
              ltac:(vm_compute; reflexivity)) as [Hiff _].
  split; [apply Hiff; simpl; tauto |].
  split; [apply Hiff; simpl; tauto |].
  intros H. apply Hiff in H. simpl in H.
  repeat (destruct H as [H | H]; [discriminate H |]). exact H.
Defined.
